(** * shop/views/dashboard.py: the product dashboard of django-shop

    A shallow embedding of [DashboardRouter] and [ProductsDashboard] and the
    properties of their routing table, serializer selection, breadcrumbs,
    permission check and CRUD actions.

    Python objects are records; dictionaries are [gmap]s; the class-level
    [Meta] objects of the serializer classes, the product table and the log of
    calls into the framework live in an explicit [World] that every method
    threads.  A method body is a computation that either goes on to the next
    statement, executes a [return], or raises. *)

From Stdlib Require Import Ascii String.
From stdpp Require Import gmap strings list fin_maps pretty.

Open Scope string_scope.

(** ** Python values used by the module *)

(** [str(x)] of an optional string attribute: [None] prints as "None". *)
Definition py_str (x : option string) : string :=
  match x with
  | Some s => s
  | None => "None"
  end.

(** ** Models, serializer classes, requests *)

(** The [_meta] options of a model class. *)
Record Options := mkOptions {
  label_lower : string;
  model_name : string;
  verbose_name : string;
}.

(** A model instance: a row of the product table. [_meta] is the options of
    its class, [inst_str] what [str(instance)] gives. *)
Record Instance := mkInstance {
  pk : Z;
  _meta : Options;
  inst_str : string;
  inst_values : gmap string string;
}.

(** The inner [Meta] class of a serializer class.  It is a class object, hence
    shared by every request: it lives in the [World], under a key.  An
    attribute the class does not have is [None] (a [Meta] that gives
    [exclude] has no [fields]).  [fields] holds the names that iterating the
    attribute yields; [model] holds the [_meta] options of [Meta.model], the
    only part of the model class the views read. *)
Record MetaClass := mkMeta {
  fields : option (list string);
  model : option Options;
}.

(** A serializer class.  [Meta] is the key of its [Meta] object in the
    world; classes that inherit their [Meta] carry the same key. *)
Record SerializerClass := mkSerializerClass {
  cls_name : string;
  Meta : string;
}.

Record User := mkUser {
  username : string;
}.

Record Request := mkRequest {
  GET : gmap string string;
  data : gmap string string;
  user : User;
  path_info : string;
}.

(** [self] of a [ProductsDashboard] view.  [suffix] and [action] are [None]
    until the router's [initkwargs] or the dispatcher set them;
    [list_display] and [list_display_links] are [None] when the attribute
    does not exist ([hasattr] is false). *)
Record ProductsDashboard := mkView {
  suffix : option string;
  action : option string;
  request : Request;
  kwargs : gmap string string;
  format_kwarg : option string;
  list_serializer_class : SerializerClass;
  detail_serializer_classes : gmap string SerializerClass;
  list_display : option (list string);
  list_display_links : option (list string);
}.

(** What [get_serializer_context] of the generic view returns. *)
Record SerializerContext := mkContext {
  ctx_request : Request;
  ctx_format : option string;
  ctx_view : ProductsDashboard;
}.

(** Values passed to a serializer as keyword arguments. *)
Inductive PyArg :=
| ArgNone
| ArgBool (b : bool)
| ArgInt (z : Z)
| ArgStr (s : string)
| ArgData (d : gmap string string)
| ArgContext (c : SerializerContext).

(** Python truth value. *)
Definition truthy (a : PyArg) : bool :=
  match a with
  | ArgNone => false
  | ArgBool b => b
  | ArgInt z => negb (Z.eqb z 0)
  | ArgStr s => negb (String.eqb s "")
  | ArgData d => negb (bool_decide (d = ∅))
  | ArgContext _ => true
  end.

(** A serializer object: the class it was built from, the positional and
    keyword arguments of the constructor, and the errors that [is_valid]
    stores on it ([None] before validation ran). *)
Record Serializer := mkSerializer {
  ser_class : SerializerClass;
  ser_args : list Instance;
  ser_kwargs : gmap string PyArg;
  errors : option (gmap string (list string));
}.

Inductive RenderVal :=
| RSerializer (s : Serializer)
| RInstance (i : Instance).

(** What an action hands back to the dispatcher: a REST [Response] around a
    context dictionary, or Django's redirect to a URL. *)
Inductive HttpResponse :=
| Response (context : gmap string RenderVal)
| HttpResponseRedirect (url : string).

(** ** Exceptions, events and the world *)

(** Exceptions the framework raises on its own ([Http404] from
    [get_object], database errors from [save], ...). *)
Inductive FrameworkError :=
| Http404
| PermissionDenied
| IntegrityError (msg : string).

(** The [KeyError] of a lookup by key. *)
Inductive LookupError :=
| KeyError (key : string).

(** The exceptions of Python itself.  [OtherError] is any class not named
    here, by its name. *)
Inductive Exc :=
| FrameworkExc (e : FrameworkError)
| AttributeError (attr : string)
| IndexError
| NotImplementedError (msg : string)
| Lookup (e : LookupError)
| ValueError
| OtherError (name : string).

(** ** [str.format] with positional string arguments *)

(** How the replacement fields seen so far were numbered: not yet, by
    themselves ([{}], [next] being the index of the next one) or by hand
    ([{0}]). *)
Inductive Numbering :=
| NumberingInit
| NumberingAuto (next : nat)
| NumberingManual.

(** What formatting a piece of a template gives: text, an exception, or
    [Beyond] when a field asks for more than this model works out. *)
Inductive Scan :=
| Text (s : string)
| Failed (e : Exc)
| Beyond.

Definition prepend (text : string) (r : Scan) : Scan :=
  match r with
  | Text s => Text (text +:+ s)
  | Failed e => Failed e
  | Beyond => Beyond
  end.

Fixpoint string_forall (p : ascii → bool) (s : string) : bool :=
  match s with
  | EmptyString => true
  | String c rest => p c && string_forall p rest
  end.

Definition is_digit (c : ascii) : bool :=
  Nat.leb 48 (nat_of_ascii c) && Nat.leb (nat_of_ascii c) 57.

Fixpoint digits_value (s : string) (acc : nat) : nat :=
  match s with
  | EmptyString => acc
  | String c rest => digits_value rest (10 * acc + (nat_of_ascii c - 48))
  end.

(** The characters that start a conversion ([!]), a format specification
    ([:]), an attribute or index lookup ([.], [[]) or a nested field. *)
Definition beyond_char (c : ascii) : bool :=
  Ascii.eqb c "!" || Ascii.eqb c ":" || Ascii.eqb c "." || Ascii.eqb c "["
  || Ascii.eqb c "{".

(** The value of the replacement field [{name}].  An empty name takes the
    next argument, a number the argument of that index, anything else is a
    keyword, and there are no keyword arguments.  Mixing [{}] and [{0}] is a
    [ValueError].  Numbers of ten digits and more may overflow the index of
    the platform and are left out. *)
Definition render_field (name : string) (st : Numbering) (args : list string) :
    Scan * Numbering :=
  let arg (i : nat) : Scan :=
    match args !! i with
    | Some a => Text a
    | None => Failed IndexError
    end in
  if negb (string_forall (λ c, negb (beyond_char c)) name) then (Beyond, st)
  else
    match name with
    | EmptyString =>
        match st with
        | NumberingInit => (arg 0, NumberingAuto 1)
        | NumberingAuto next => (arg next, NumberingAuto (S next))
        | NumberingManual => (Failed ValueError, st)
        end
    | String _ _ =>
        if string_forall is_digit name then
          if Nat.ltb 9 (String.length name) then (Beyond, st)
          else
            match st with
            | NumberingAuto _ => (Failed ValueError, st)
            | _ => (arg (digits_value name 0), NumberingManual)
            end
        else (Failed (Lookup (KeyError name)), st)
    end.

(** The scanner of [str.format].  Outside a field ([field] is [None]) [{{]
    and [}}] are the braces themselves, a lone [}] or a [{] at the very end is
    a [ValueError], and any other [{] opens a field.  Inside a field
    ([field] holds the depth of the braces nested in it and what was read of
    it) the field ends at the [}] that matches its [{]; the end of the
    template before that is a [ValueError].  The pieces are formatted from
    the left, so the first failure is the one raised. *)
Fixpoint format_from (tmpl : string) (field : option (nat * string)) (st : Numbering)
    (args : list string) : Scan :=
  match tmpl with
  | EmptyString =>
      match field with
      | None => Text ""
      | Some _ => Failed ValueError
      end
  | String c rest =>
      match field with
      | Some (depth, name) =>
          if Ascii.eqb c "{" then
            format_from rest (Some (S depth, name +:+ String c "")) st args
          else if Ascii.eqb c "}" then
            match depth with
            | O =>
                match render_field name st args with
                | (Text value, st') => prepend value (format_from rest None st' args)
                | (failure, _) => failure
                end
            | S depth' => format_from rest (Some (depth', name +:+ String c "")) st args
            end
          else format_from rest (Some (depth, name +:+ String c "")) st args
      | None =>
          if Ascii.eqb c "{" then
            match rest with
            | EmptyString => Failed ValueError
            | String c' rest' =>
                if Ascii.eqb c' "{" then prepend "{" (format_from rest' None st args)
                else format_from rest (Some (O, "")) st args
            end
          else if Ascii.eqb c "}" then
            match rest with
            | EmptyString => Failed ValueError
            | String c' rest' =>
                if Ascii.eqb c' "}" then prepend "}" (format_from rest' None st args)
                else Failed ValueError
            end
          else prepend (String c "") (format_from rest None st args)
      end
  end.

(** [tmpl.format( *args )].  A template with a field beyond the model is
    handed to [beyond], Python's own [str.format]. *)
Definition py_format (beyond : string → list string → Exc + string)
    (tmpl : string) (args : list string) : Exc + string :=
  match format_from tmpl None NumberingInit args with
  | Text s => inr s
  | Failed e => inl e
  | Beyond => beyond tmpl args
  end.

(** Calls into the framework that read or write outside the view. *)
Inductive Event :=
| EvGetObject
| EvHasPerm (u : User) (perm : string)
| EvIsValid (s : Serializer)
| EvSave (s : Serializer).

Record World := mkWorld {
  metas : gmap string MetaClass;
  products : gmap Z Instance;
  trace : list Event;
}.

Definition log (ev : Event) (w : World) : World :=
  mkWorld (metas w) (products w) (trace w ++ [ev])%list.

Definition set_metas (ms : gmap string MetaClass) (w : World) : World :=
  mkWorld ms (products w) (trace w).

Definition set_products (db : gmap Z Instance) (w : World) : World :=
  mkWorld (metas w) db (trace w).

(** ** Method bodies *)

(** Running a statement either falls through to the next one with a value,
    executes [return], or raises. *)
Inductive Outcome (R A : Type) : Type :=
| Next (a : A) (w : World)
| Returned (r : R) (w : World)
| Raised (e : Exc) (w : World).
Arguments Next {R A} a w.
Arguments Returned {R A} r w.
Arguments Raised {R A} e w.

Definition Body (R A : Type) : Type := World → Outcome R A.

Definition pure {R A} (a : A) : Body R A := λ w, Next a w.

Definition bind {R A B} (m : Body R A) (k : A → Body R B) : Body R B :=
  λ w, match m w with
       | Next a w' => k a w'
       | Returned r w' => Returned r w'
       | Raised e w' => Raised e w'
       end.

Definition return_ {R A} (r : R) : Body R A := λ w, Returned r w.
Definition raise {R A} (e : Exc) : Body R A := λ w, Raised e w.
Definition get_world {R} : Body R World := λ w, Next w w.
Definition put_world {R} (w' : World) : Body R unit := λ _, Next tt w'.
Definition emit {R} (ev : Event) : Body R unit := λ w, Next tt (log ev w).

(** The statements of a body chain with stdpp's monad notations:
    [x ← m; k] runs [m], binds its value and goes on with [k]. *)
#[global] Instance Body_ret {R} : MRet (Body R) := λ A, pure.
#[global] Instance Body_bind {R} : MBind (Body R) := λ A B k m, bind m k.

(** Calling a method whose body always ends in [return] or [raise]: it cannot
    fall off its end, which the result type [False] of the body records. *)
Definition call {R R'} (body : Body R False) : Body R' R :=
  λ w, match body w with
       | Next f _ => match f with end
       | Returned r w' => Next r w'
       | Raised e w' => Raised e w'
       end.

(** Calling a method whose body may fall off its end: Python then returns
    [None]. *)
Definition call_or_None {R R'} (body : Body R unit) : Body R' (option R) :=
  λ w, match body w with
       | Next _ w' => Next None w'
       | Returned r w' => Next (Some r) w'
       | Raised e w' => Raised e w'
       end.

(** [d.get(key, dflt)] on a dictionary keyed by strings, where the key looked
    up may be [None] (a missing GET parameter): [None] is not a key. *)
Definition dict_get {V} (d : gmap string V) (key : option string) (dflt : V) : V :=
  match key with
  | Some k => default dflt (d !! k)
  | None => dflt
  end.

(** [tmpl.format( *args )] as an expression. *)
Definition format {R} (beyond : string → list string → Exc + string)
    (tmpl : string) (args : list string) : Body R string :=
  match py_format beyond tmpl args with
  | inr s => mret s
  | inl e => raise e
  end.

(** ** The framework and the settings the module imports *)

(** Django and the REST framework, as far as this module calls them.
    [ugettext_lazy] is the translation catalogue of the active language;
    [reverse] the URL configuration; [fetch_object] the generic view's
    [get_object] (queryset lookup by the URL keyword arguments and object
    permissions); [run_validation] gives the error dictionary that
    [is_valid] stores; [perform_save] is the serializer's [save] on the
    product table.  [str_format_beyond] is Python's [str.format] on the
    templates that have a conversion, a format specification, an attribute or
    index lookup or a nested field, which [py_format] does not work out. *)
Record Framework := mkFramework {
  str_format_beyond : string → list string → Exc + string;
  ugettext_lazy : string → string;
  reverse : string → list string → string;
  get_permission_codename : string → Options → string;
  has_perm : User → string → bool;
  fetch_object : ProductsDashboard → gmap Z Instance → FrameworkError + Instance;
  run_validation : Serializer → gmap Z Instance → gmap string (list string);
  perform_save : Serializer → gmap Z Instance → FrameworkError + gmap Z Instance;
}.

(** [shop.app_settings], [shop.models.product.ProductModel] and
    [shop.serializers.bases.ProductSerializer]. *)
Record Settings := mkSettings {
  APP_LABEL : string;
  PRODUCT_SUMMARY_SERIALIZER : SerializerClass;
  ProductSerializer : SerializerClass;
  ProductModel_meta : Options;
  ProductModel_Meta_verbose_name_plural : string;
}.

(** ** DashboardRouter *)

Inductive RouteEntry :=
| Route (url : string) (mapping : gmap string string) (name : string)
    (initkwargs : gmap string string)
| DynamicDetailRoute (url : string) (name : string)
    (initkwargs : gmap string string).

Module DashboardRouter.

Definition root_view_name : string := "root".
Definition root_template_name : string := "shop/dashboard/root.html".

Definition routes : list RouteEntry := [
  (* List route. *)
  Route "^{prefix}{trailing_slash}$"
    {[ "get" := "list" ]}
    "{basename}-list"
    {[ "suffix" := "List" ]};
  (* Detail route. *)
  Route "^{prefix}/{lookup}/change{trailing_slash}$"
    (<[ "get" := "retrieve" ]> {[ "post" := "update" ]})
    "{basename}-change"
    {[ "suffix" := "Instance" ]};
  Route "^{prefix}/add{trailing_slash}$"
    (<[ "get" := "new" ]> {[ "post" := "create" ]})
    "{basename}-add"
    {[ "suffix" := "New" ]};
  (* Dynamically generated detail routes. *)
  DynamicDetailRoute "^{prefix}/{lookup}/{methodname}{trailing_slash}$"
    "{basename}-{methodnamehyphen}"
    ∅
].

Definition get_breadcrumbs_body (fw : Framework) : Body (list (string * string)) False :=
  return_ [(ugettext_lazy fw "Dashboard", reverse fw "dashboard:root" [])].

Definition get_breadcrumbs {R} (fw : Framework) : Body R (list (string * string)) :=
  call (get_breadcrumbs_body fw).

End DashboardRouter.

Definition route_url (r : RouteEntry) : string :=
  match r with
  | Route url _ _ _ => url
  | DynamicDetailRoute url _ _ => url
  end.

(** The action the table gives for an HTTP method on a route; a dynamic
    route carries no mapping of its own. *)
Definition route_action (r : RouteEntry) (method : string) : option string :=
  match r with
  | Route _ mapping _ _ => mapping !! method
  | DynamicDetailRoute _ _ _ => None
  end.

(** ** ProductsDashboard *)

Section Views.

Context (fw : Framework) (cfg : Settings).

(** *** Calls into the framework *)

(** [self.get_object()]: one lookup in the product table, [Http404] or a
    permission error when the framework says so. *)
Definition get_object {R} (self : ProductsDashboard) : Body R Instance :=
  λ w, let w1 := log EvGetObject w in
       match fetch_object fw self (products w) with
       | inl e => Raised (FrameworkExc e) w1
       | inr instance => Next instance w1
       end.

Definition get_serializer_context {R} (self : ProductsDashboard) : Body R SerializerContext :=
  mret (mkContext (request self) (format_kwarg self) self).

(** [request.user.has_perm(perm)]. *)
Definition user_has_perm {R} (u : User) (perm : string) : Body R bool :=
  emit (EvHasPerm u perm);;
  mret (has_perm fw u perm).

(** [serializer.is_valid()]: runs the validation against the product
    table, stores the error dictionary on the serializer object and answers
    whether it is empty.  The object is mutated in place in Python; here the
    caller rebinds its only reference to it. *)
Definition is_valid {R} (s : Serializer) : Body R (bool * Serializer) :=
  λ w, let errs := run_validation fw s (products w) in
       Next (bool_decide (errs = ∅),
             mkSerializer (ser_class s) (ser_args s) (ser_kwargs s) (Some errs))
            (log (EvIsValid s) w).

(** [serializer.save()]: the only call that writes the product table. *)
Definition save {R} (s : Serializer) : Body R unit :=
  λ w, let w1 := log (EvSave s) w in
       match perform_save fw s (products w) with
       | inl e => Raised (FrameworkExc e) w1
       | inr db => Next tt (set_products db w1)
       end.

(** [django.shortcuts.redirect(to)] for a URL name. *)
Definition redirect (to : string) : HttpResponse :=
  HttpResponseRedirect (reverse fw to []).

(** *** Class attributes of the serializer classes *)

(** [cls.Meta]: an [AttributeError] when the class has none. *)
Definition getattr_Meta {R} (cls : SerializerClass) : Body R MetaClass :=
  w ← get_world;
  match metas w !! Meta cls with
  | Some m => mret m
  | None => raise (AttributeError "Meta")
  end.

(** [m.fields] and [m.model] of a [Meta] object [m]: an [AttributeError]
    when it has no such attribute. *)
Definition getattr_fields {R} (m : MetaClass) : Body R (list string) :=
  match fields m with
  | Some fs => mret fs
  | None => raise (AttributeError "fields")
  end.

Definition getattr_model {R} (m : MetaClass) : Body R Options :=
  match model m with
  | Some options => mret options
  | None => raise (AttributeError "model")
  end.

(** [cls.Meta.fields = fs]: binds the attribute of the shared [Meta]
    object, whether it had one or not. *)
Definition setattr_Meta_fields {R} (cls : SerializerClass) (fs : list string) : Body R unit :=
  m ← getattr_Meta cls;
  w ← get_world;
  put_world (set_metas (<[Meta cls := mkMeta (Some fs) (model m)]> (metas w)) w).

(** *** The methods *)

Definition get_serializer_class_body (self : ProductsDashboard) : Body SerializerClass False :=
  (if bool_decide (suffix self = Some "List") then
     return_ (list_serializer_class self)
   else if bool_decide (suffix self = Some "Instance") then
     instance ← get_object self;
     return_ (dict_get (detail_serializer_classes self)
                (Some (label_lower (_meta instance))) (ProductSerializer cfg))
   else if bool_decide (suffix self = Some "New") then
     let model := GET (request self) !! "model" in
     return_ (dict_get (detail_serializer_classes self) model (ProductSerializer cfg))
   else mret tt);;
  let msg := "ViewSet 'ProductsDashboard' is not implemented for action '{}'" in
  (return_ (list_serializer_class self) : Body _ unit);; (* TODO: use the correct *)
  text ← format (str_format_beyond fw) msg [py_str (action self)];
  raise (NotImplementedError text).

Definition get_serializer_class {R} (self : ProductsDashboard) : Body R SerializerClass :=
  call (get_serializer_class_body self).

Definition get_list_display_body (self : ProductsDashboard) : Body (list string) False :=
  match list_display self with
  | Some ld => return_ ld
  | None => mret tt
  end;;
  m ← getattr_Meta (list_serializer_class self);
  fs ← getattr_fields m;
  return_ fs.

Definition get_list_display {R} (self : ProductsDashboard) : Body R (list string) :=
  call (get_list_display_body self).

Definition get_list_display_links_body (self : ProductsDashboard) : Body (list string) False :=
  match list_display_links self with
  | Some links => return_ links
  | None => mret tt
  end;;
  ld ← get_list_display self;
  return_ (take 1 ld).

Definition get_list_display_links {R} (self : ProductsDashboard) : Body R (list string) :=
  call (get_list_display_links_body self).

Definition get_serializer_body (self : ProductsDashboard)
    (args : list Instance) (kwargs : gmap string PyArg) : Body Serializer False :=
  serializer_class ← get_serializer_class self;
  context ← get_serializer_context self;
  let kwargs := <["label" := ArgStr "dashboard"]> (<["context" := ArgContext context]> kwargs) in
  (if truthy (default (ArgBool false) (kwargs !! "many")) then
     let list_fields := ["pk"] in
     ld ← get_list_display self;
     let list_fields := (list_fields ++ ld)%list in
     setattr_Meta_fields serializer_class list_fields (* reorder the fields *)
   else mret tt);;
  let serializer := mkSerializer serializer_class args kwargs None in
  return_ serializer.

Definition get_serializer {R} (self : ProductsDashboard)
    (args : list Instance) (kwargs : gmap string PyArg) : Body R Serializer :=
  call (get_serializer_body self args kwargs).

Definition get_breadcrumbs_body (self : ProductsDashboard) : Body (list (string * string)) False :=
  breadcrumbs ← DashboardRouter.get_breadcrumbs fw;
  let breadcrumbs := (breadcrumbs ++
    [(ProductModel_Meta_verbose_name_plural cfg, reverse fw "dashboard:product-list" [])])%list in
  breadcrumbs ←
    (if bool_decide (suffix self = Some "Instance") then
       instance ← get_object self;
       mret (breadcrumbs ++ [(inst_str instance, path_info (request self))])%list
     else if bool_decide (suffix self = Some "New") then
       cls ← get_serializer_class self;
       m ← getattr_Meta cls;
       options ← getattr_model m;
       label ← format (str_format_beyond fw) (ugettext_lazy fw "Add {}")
                 [verbose_name options];
       mret (breadcrumbs ++ [(label, path_info (request self))])%list
     else mret breadcrumbs);
  return_ breadcrumbs.

Definition get_breadcrumbs {R} (self : ProductsDashboard) : Body R (list (string * string)) :=
  call (get_breadcrumbs_body self).

Definition has_add_permission_body (self : ProductsDashboard) : Body bool False :=
  let codename := get_permission_codename fw "add" (ProductModel_meta cfg) in
  perm ← format (str_format_beyond fw) "{}.{}" [APP_LABEL cfg; codename];
  allowed ← user_has_perm (user (request self)) perm;
  return_ allowed.

Definition has_add_permission {R} (self : ProductsDashboard) : Body R bool :=
  call (has_add_permission_body self).

Definition new_body (self : ProductsDashboard) (request : Request) : Body HttpResponse False :=
  serializer ← get_serializer self [] ∅;
  return_ (Response {[ "serializer" := RSerializer serializer ]}).

Definition new {R} (self : ProductsDashboard) (request : Request) : Body R HttpResponse :=
  call (new_body self request).

Definition create_body (self : ProductsDashboard) (request : Request) : Body HttpResponse False :=
  serializer ← get_serializer self [] {[ "data" := ArgData (data request) ]};
  '(valid, serializer) ← is_valid serializer;
  (if valid : bool then
     save serializer;;
     return_ (redirect "dashboard:product-list")
   else mret tt);;
  return_ (Response {[ "serializer" := RSerializer serializer ]}).

Definition create {R} (self : ProductsDashboard) (request : Request) : Body R HttpResponse :=
  call (create_body self request).

Definition retrieve_body (self : ProductsDashboard) (request : Request) : Body HttpResponse False :=
  instance ← get_object self;
  serializer ← get_serializer self [instance] ∅;
  return_ (Response (<[ "serializer" := RSerializer serializer ]>
                       {[ "instance" := RInstance instance ]})).

Definition retrieve {R} (self : ProductsDashboard) (request : Request) : Body R HttpResponse :=
  call (retrieve_body self request).

(** The body of [update] ends with the [if]: when the data is not valid no
    statement is left and the method falls off its end. *)
Definition update_body (self : ProductsDashboard) (request : Request) : Body HttpResponse unit :=
  instance ← get_object self;
  serializer ← get_serializer self [instance] {[ "data" := ArgData (data request) ]};
  '(valid, serializer) ← is_valid serializer;
  if valid : bool then
    save serializer;;
    return_ (redirect "dashboard:product-list")
  else mret tt.

Definition update {R} (self : ProductsDashboard) (request : Request) : Body R (option HttpResponse) :=
  call_or_None (update_body self request).

(** The serializer object once [is_valid] has stored its errors. *)
Definition validated (s : Serializer) (w : World) : Serializer :=
  mkSerializer (ser_class s) (ser_args s) (ser_kwargs s)
    (Some (run_validation fw s (products w))).

End Views.

(** ** Vocabulary of the properties *)

(** The world an outcome leaves behind. *)
Definition world_of {R A} (o : Outcome R A) : World :=
match o with
| Next _ w => w
| Returned _ w => w
| Raised _ w => w
end.

(** The five (URL, method, action) entries of the table. *)
Definition method_map : list (string * string * string) := [
("^{prefix}{trailing_slash}$", "get", "list");
("^{prefix}/{lookup}/change{trailing_slash}$", "get", "retrieve");
("^{prefix}/{lookup}/change{trailing_slash}$", "post", "update");
("^{prefix}/add{trailing_slash}$", "get", "new");
("^{prefix}/add{trailing_slash}$", "post", "create")
].

(** The three suffixes the method knows. *)
Definition known_suffix (sfx : option string) : Prop :=
  sfx = Some "List" ∨ sfx = Some "Instance" ∨ sfx = Some "New".

(** The keyword arguments after [kwargs.update(context=..., label=...)]. *)
Definition updated_kwargs (self : ProductsDashboard) (kwargs : gmap string PyArg) :
    gmap string PyArg :=
  <["label" := ArgStr "dashboard"]>
    (<["context" := ArgContext (mkContext (request self) (format_kwarg self) self)]> kwargs).

(** [w'] is reached from [w] without a [save]: the product table is the
    same and no [save] is among the calls logged since. *)
Definition no_save_since (w w' : World) : Prop :=
  products w' = products w
  ∧ ∃ evs, trace w' = (trace w ++ evs)%list ∧ ∀ s, EvSave s ∉ evs.

(** ** A small shop to run the methods on *)

Module Demo.

Definition smartcard_options : Options := mkOptions "myshop.smartcard" "smartcard" "Smart Card".
Definition product_options : Options := mkOptions "myshop.product" "product" "Product".

Definition ProductSummarySerializer : SerializerClass :=
  mkSerializerClass "ProductSummarySerializer" "ProductSummarySerializer.Meta".
Definition BaseProductSerializer : SerializerClass :=
  mkSerializerClass "ProductSerializer" "ProductSerializer.Meta".
Definition SmartCardSerializer : SerializerClass :=
  mkSerializerClass "SmartCardSerializer" "SmartCardSerializer.Meta".

Definition cfg : Settings :=
  mkSettings "myshop" ProductSummarySerializer BaseProductSerializer product_options "Products".

Definition card (n : Z) (name : string) : Instance :=
  mkInstance n smartcard_options name {[ "product_name" := name ]}.

(** The data are valid when they name the product. *)
Definition validate (s : Serializer) (db : gmap Z Instance) : gmap string (list string) :=
  match ser_kwargs s !! "data" with
  | Some (ArgData d) =>
      match d !! "product_name" with
      | Some _ => ∅
      | None => {[ "product_name" := ["This field is required."] ]}
      end
  | _ => {[ "non_field_errors" := ["No data provided"] ]}
  end.

(** [save] updates the row of the instance the serializer was built on, or
    adds a row under the key 100. *)
Definition store (s : Serializer) (db : gmap Z Instance) : FrameworkError + gmap Z Instance :=
  match ser_kwargs s !! "data" with
  | Some (ArgData d) =>
      let name := default "" (d !! "product_name") in
      match ser_args s with
      | i :: _ => inr (<[pk i := mkInstance (pk i) (_meta i) name d]> db)
      | [] => inr (<[100%Z := mkInstance 100 smartcard_options name d]> db)
      end
  | _ => inl (IntegrityError "no data")
  end.

Definition fetch (self : ProductsDashboard) (db : gmap Z Instance) : FrameworkError + Instance :=
  match kwargs self !! "pk" with
  | Some key =>
      match list_find (λ i, bool_decide (pretty (pk i) = key)) (map_to_list db).*2 with
      | Some (_, i) => inr i
      | None => inl Http404
      end
  | None => inl Http404
  end.

(** No template of the small shop goes beyond [py_format]; this stands in
    for Python's own formatting of those that would. *)
Definition format_beyond (tmpl : string) (args : list string) : Exc + string :=
  inl (OtherError "FormatBeyondTheModel").

Definition fw : Framework :=
  mkFramework
    format_beyond
    (λ msgid, msgid)
    (λ name args, "/" +:+ name)
    (λ act opts, act +:+ "_" +:+ model_name opts)
    (λ u perm, bool_decide (username u = "admin"))
    fetch validate store.

Definition admin : User := mkUser "admin".

Definition world : World :=
  mkWorld
    (<["ProductSummarySerializer.Meta" :=
         mkMeta (Some ["product_name"; "price"]) (Some product_options)]>
     (<["ProductSerializer.Meta" := mkMeta (Some ["product_name"]) (Some product_options)]>
      {["SmartCardSerializer.Meta" :=
          mkMeta (Some ["product_name"; "storage"]) (Some smartcard_options)]}))
    {[ 1%Z := card 1 "SD 4GB" ]}
    [].

Definition view (sfx : option string) (req : Request) : ProductsDashboard :=
  mkView sfx None req {[ "pk" := "1" ]} None ProductSummarySerializer
    {[ "myshop.smartcard" := SmartCardSerializer ]} None None.

Definition get_request : Request := mkRequest ∅ ∅ admin "/dashboard/products/".
Definition add_request : Request :=
  mkRequest {[ "model" := "myshop.smartcard" ]} ∅ admin "/dashboard/products/add/".
Definition good_post : Request :=
  mkRequest ∅ {[ "product_name" := "SD 8GB" ]} admin "/dashboard/products/1/change/".
Definition bad_post : Request :=
  mkRequest ∅ {[ "price" := "12" ]} admin "/dashboard/products/1/change/".

Definition list_view : ProductsDashboard := view (Some "List") get_request.
Definition change_view (req : Request) : ProductsDashboard := view (Some "Instance") req.
Definition add_view (req : Request) : ProductsDashboard := view (Some "New") req.
Definition detail_route_view : ProductsDashboard := view None get_request.

(** The serializer the list view builds for [many=True], and the [Meta] of
    the summary serializer before the call. *)
Definition many_kwargs : gmap string PyArg := {[ "many" := ArgBool true ]}.
Definition summary_Meta : MetaClass :=
  mkMeta (Some ["product_name"; "price"]) (Some product_options).

(** The serializers [create] and [update] build for a POST. *)
Definition posted (self : ProductsDashboard) (args : list Instance) (req : Request) : Serializer :=
  mkSerializer SmartCardSerializer args
    (updated_kwargs self {[ "data" := ArgData (data req) ]}) None.

Definition fetched : World := log EvGetObject world.
Definition fetched_twice : World := log EvGetObject fetched.

Definition demo_root : string * string := ("Dashboard", "/dashboard:root").
Definition demo_products : string * string := ("Products", "/dashboard:product-list").

End Demo.

(** ** The renderer context and the root view *)

(** A bound field of a serializer instance, as the list template shows it. *)
Record Field := mkField {
  field_label : string;
  read_only : bool;
}.

(** Values of the template context. *)
Inductive TemplateVal :=
| TBreadcrumbs (crumbs : list (string * string))
| TBool (b : bool)
| TFields (od : list (string * Field))
| TNames (names : list string)
| TModels (models : list (string * string))
| TStr (s : string).

(** Values of the renderer context. *)
Inductive RendererVal :=
| RView (v : ProductsDashboard)
| RArgs (a : list string)
| RKwargs (k : gmap string string)
| RRequest (r : Request)
| RTemplateContext (c : gmap string TemplateVal).

(** What the REST framework gives the renderer: the bound fields of an
    instance of a serializer class (built from the class attributes of the
    moment) and the renderer context of the generic view. *)
Record RenderFramework := mkRenderFramework {
  serializer_fields : SerializerClass → gmap string MetaClass → gmap string Field;
  super_get_renderer_context : ProductsDashboard → gmap string RendererVal;
}.

(** [od[k] = v] on an [OrderedDict]: a new key goes to the end, a key already
    there keeps its place and takes the new value. *)
Fixpoint od_set {V} (od : list (string * V)) (k : string) (v : V) : list (string * V) :=
  match od with
  | [] => [(k, v)]
  | (k', v') :: rest =>
      if String.eqb k' k then (k', v) :: rest else (k', v') :: od_set rest k v
  end.

(** The loop [for field_name in names: od[field_name] = flds[field_name]];
    the subscript of a missing name is a [KeyError]. *)
Fixpoint fill_list_display_fields (flds : gmap string Field) (names : list string)
    (od : list (string * Field)) : LookupError + list (string * Field) :=
  match names with
  | [] => inr od
  | field_name :: names' =>
      match flds !! field_name with
      | Some f => fill_list_display_fields flds names' (od_set od field_name f)
      | None => inl (KeyError field_name)
      end
  end.

(** [s.replace(old, new)]: occurrences are found from the left and do not
    overlap; [skip] counts the characters of an occurrence still to pass
    over.  An empty [old] matches before every character and at the end. *)
Fixpoint replace_from (old new s : string) (skip : nat) : string :=
  match s with
  | EmptyString => EmptyString
  | String c rest =>
      match skip with
      | S k => replace_from old new rest k
      | O =>
          if String.prefix old s
          then new +:+ replace_from old new rest (String.length old - 1)
          else String c (replace_from old new rest 0)
      end
  end.

Fixpoint intersperse_after (new s : string) : string :=
  match s with
  | EmptyString => EmptyString
  | String c rest => String c (new +:+ intersperse_after new rest)
  end.

Definition py_replace (old new s : string) : string :=
  match old with
  | EmptyString => new +:+ intersperse_after new s
  | String _ _ => replace_from old new s 0
  end.

Section Renderer.

Context (fw : Framework) (cfg : Settings) (rf : RenderFramework).

(** The loop over [detail_serializer_classes.items()], appending to
    [detail_models]. *)
Fixpoint detail_models_loop {R} (items : list (string * SerializerClass))
    (detail_models : list (string * string)) : Body R (list (string * string)) :=
  match items with
  | [] => mret detail_models
  | (name, serializer_class) :: rest =>
      m ← getattr_Meta serializer_class;
      options ← getattr_model m;
      detail_models_loop rest (detail_models ++ [(name, verbose_name options)])%list
  end.

(** [get_renderer_context].  The items of the dictionary of detail
    serializers come in the order of [map_to_list], which stands for the
    unspecified order of a Python 2 dictionary.  The [KeyError] of the
    subscript [serializer_class.fields[field_name]] ends the method with the
    left answer; every other exception comes up as [Raised]. *)
Definition get_renderer_context_body (self : ProductsDashboard) :
    Body (LookupError + gmap string RendererVal) False :=
  breadcrumblist ← get_breadcrumbs fw cfg self;
  allowed ← has_add_permission fw cfg self;
  let template_context : gmap string TemplateVal :=
    <[ "has_add_permission" := TBool allowed ]>
      {[ "breadcrumblist" := TBreadcrumbs breadcrumblist ]} in
  template_context ←
    (if bool_decide (suffix self = Some "List") then
       let list_display_fields : list (string * Field) := [] in
       let serializer_class := list_serializer_class self in
       names ← get_list_display self;
       w ← get_world;
       list_display_fields ←
         match fill_list_display_fields (serializer_fields rf serializer_class (metas w))
                 names list_display_fields with
         | inl err => return_ (inl err)
         | inr od => mret od
         end;
       let template_context :=
         <[ "list_display_fields" := TFields list_display_fields ]> template_context in
       links ← get_list_display_links self;
       let template_context := <[ "list_display_links" := TNames links ]> template_context in
       let detail_models : list (string * string) := [] in
       detail_models ←
         detail_models_loop (map_to_list (detail_serializer_classes self)) detail_models;
       let template_context := <[ "detail_models" := TModels detail_models ]> template_context in
       let detail_url := reverse fw "dashboard:product-change" [":PK:"] in
       mret (<[ "detail_ng_href" := TStr (py_replace ":PK:" "{{ entry.pk }}" detail_url) ]>
               template_context)
     else mret template_context);
  let renderer_context := super_get_renderer_context rf self in
  return_ (inr (<[ "template_context" := RTemplateContext template_context ]> renderer_context)).

Definition get_renderer_context {R} (self : ProductsDashboard) :
    Body R (LookupError + gmap string RendererVal) :=
  call (get_renderer_context_body self).

End Renderer.

(** The response of the root view: a context and the template to render. *)
Record TemplateResponse := mkTemplateResponse {
  resp_context : gmap string TemplateVal;
  template_name : string;
}.

(** [RootView.get] of [DashboardRouter.get_api_root_view]. *)
Definition RootView_get_body (fw : Framework) (request : Request) : Body TemplateResponse False :=
  breadcrumblist ← DashboardRouter.get_breadcrumbs fw;
  let context : gmap string TemplateVal :=
    {[ "breadcrumblist" := TBreadcrumbs breadcrumblist ]} in
  return_ (mkTemplateResponse context DashboardRouter.root_template_name).

Definition RootView_get {R} (fw : Framework) (request : Request) : Body R TemplateResponse :=
  call (RootView_get_body fw request).

(** ** More vocabulary *)

(** The world after [n] calls of [get_serializer] in a row. *)
Fixpoint after_calls (fw : Framework) (cfg : Settings) (self : ProductsDashboard)
    (args : list Instance) (kwargs : gmap string PyArg) (n : nat) (w : World) : World :=
  match n with
  | O => w
  | S n' =>
      world_of (get_serializer (R:=unit) fw cfg self args kwargs
                  (after_calls fw cfg self args kwargs n' w))
  end.

(** The keys of an [OrderedDict], in order. *)
Definition od_keys {V} (od : list (string * V)) : list string := od.*1.

(** The first occurrences of the names of a list, in order. *)
Fixpoint first_occurrences (names : list string) (seen : list string) : list string :=
  match names with
  | [] => []
  | n :: rest =>
      if bool_decide (n ∈ seen) then first_occurrences rest seen
      else n :: first_occurrences rest (n :: seen)
  end.

(** A string without the character [c]. *)
Fixpoint without_char (c : ascii) (s : string) : Prop :=
  match s with
  | EmptyString => True
  | String c' rest => c' ≠ c ∧ without_char c rest
  end.

Module DemoList.

Definition name_field : Field := mkField "Product name" false.
Definition price_field : Field := mkField "Price" true.

(** The bound fields: the names of [Meta.fields] that the model has. *)
Definition fields_of (cls : SerializerClass) (ms : gmap string MetaClass) : gmap string Field :=
  match ms !! Meta cls with
  | Some m =>
      list_to_map
        (omap (λ n, if bool_decide (n = "product_name") then Some (n, name_field)
                    else if bool_decide (n = "price") then Some (n, price_field)
                    else None) (default [] (fields m)))
  | None => ∅
  end.

Definition rf : RenderFramework :=
  mkRenderFramework fields_of
    (λ self, <[ "view" := RView self ]> {[ "request" := RRequest (request self) ]}).

(** The URLs of the dashboard: the list under [/dashboard/products/], the
    change view of a product under its key. *)
Definition url_of (name : string) (args : list string) : string :=
  match args with
  | [] => "/dashboard/products/"
  | key :: _ => "/dashboard/products/" +:+ key +:+ "/change/"
  end.

Definition fw : Framework :=
  mkFramework Demo.format_beyond (λ msgid, msgid) url_of
    (λ act opts, act +:+ "_" +:+ model_name opts)
    (λ u perm, bool_decide (username u = "admin"))
    Demo.fetch Demo.validate Demo.store.

(** The shop with a German catalogue, which puts the name first. *)
Definition german (msgid : string) : string :=
  if String.eqb msgid "Add {}" then "{} hinzufuegen" else msgid.

Definition german_fw : Framework :=
  mkFramework Demo.format_beyond german (λ name args, "/" +:+ name)
    (λ act opts, act +:+ "_" +:+ model_name opts)
    (λ u perm, bool_decide (username u = "admin"))
    Demo.fetch Demo.validate Demo.store.

(** A world where the [Meta] of the summary serializer gives [exclude]
    and so has no [fields], and the one of the smart card serializer names no
    [model]. *)
Definition partial_Meta_world : World :=
  mkWorld
    (<["ProductSummarySerializer.Meta" := mkMeta None (Some Demo.product_options)]>
       (<["SmartCardSerializer.Meta" := mkMeta (Some ["product_name"]) None]>
          (metas Demo.world)))
    (products Demo.world) [].

(** A list view that shows the product name twice and the price. *)
Definition columns_view : ProductsDashboard :=
  mkView (Some "List") None Demo.get_request ∅ None Demo.ProductSummarySerializer
    {[ "myshop.smartcard" := Demo.SmartCardSerializer ]}
    (Some ["product_name"; "price"; "product_name"]) None.

(** A list view that names a column the serializer does not have. *)
Definition broken_view : ProductsDashboard :=
  mkView (Some "List") None Demo.get_request ∅ None Demo.ProductSummarySerializer
    ∅ (Some ["product_name"; "weight"]) None.

(** A world where the summary serializer has lost its [Meta]. *)
Definition no_Meta_world : World :=
  mkWorld (delete "ProductSummarySerializer.Meta" (metas Demo.world))
    (products Demo.world) [].

(** A change request for a product that does not exist. *)
Definition missing_view (req : Request) : ProductsDashboard :=
  mkView (Some "Instance") None req {[ "pk" := "7" ]} None Demo.ProductSummarySerializer
    {[ "myshop.smartcard" := Demo.SmartCardSerializer ]} None None.

End DemoList.

(** * Properties *)

(** ** Reasoning about bodies *)

Lemma bind_Next {R A B} (m : Body R A) (k : A → Body R B) w a w' :
  m w = Next a w' → (m ≫= k) w = k a w'.
Proof. intros H. unfold mbind, Body_bind, bind. by rewrite H. Qed.

Lemma bind_Raised {R A B} (m : Body R A) (k : A → Body R B) w e w' :
  m w = Raised e w' → (m ≫= k) w = Raised e w'.
Proof. intros H. unfold mbind, Body_bind, bind. by rewrite H. Qed.

Lemma bind_Returned {R A B} (m : Body R A) (k : A → Body R B) w r w' :
  m w = Returned r w' → (m ≫= k) w = Returned r w'.
Proof. intros H. unfold mbind, Body_bind, bind. by rewrite H. Qed.

Lemma call_Returned {R R'} (body : Body R False) w r w' :
  body w = Returned r w' → call (R':=R') body w = Next r w'.
Proof. intros H. unfold call. by rewrite H. Qed.

Lemma call_Raised {R R'} (body : Body R False) w e w' :
  body w = Raised e w' → call (R':=R') body w = Raised e w'.
Proof. intros H. unfold call. by rewrite H. Qed.

(** A call never executes a [return] of its caller. *)
Lemma call_not_Returned {R R'} (body : Body R False) w r w' :
  call (R':=R') body w ≠ Returned r w'.
Proof. unfold call. by destruct (body w) as [[]| |]. Qed.

Lemma append_empty_r (s : string) : s +:+ "" = s.
Proof.
  induction s as [|c s IH]; [done|].
  change (String c (s +:+ "") = String c s). by rewrite IH.
Qed.

Lemma py_format_dotted beyond (a b : string) :
  py_format beyond "{}.{}" [a; b] = inr (a +:+ "." +:+ b).
Proof.
  unfold py_format. cbn -[String.append]. by rewrite append_empty_r.
Qed.

Lemma py_format_Add beyond (name : string) :
  py_format beyond "Add {}" [name] = inr ("Add " +:+ name).
Proof.
  unfold py_format. cbn -[String.append]. by rewrite append_empty_r.
Qed.

Example py_format_perm beyond :
  py_format beyond "{}.{}" ["shop"; "add_product"] = inr "shop.add_product".
Proof. reflexivity. Qed.

(** A numbered field, a named field, escaped braces and a lone brace. *)
Example py_format_fields beyond :
  py_format beyond "{0} (new)" ["Smart Card"] = inr "Smart Card (new)"
  ∧ py_format beyond "Add {name}" ["Smart Card"] = inl (Lookup (KeyError "name"))
  ∧ py_format beyond "{{{}}}" ["x"] = inr "{x}"
  ∧ py_format beyond "{} of {}" ["x"] = inl IndexError
  ∧ py_format beyond "{}{0}" ["x"] = inl ValueError
  ∧ py_format beyond "50% }" ["x"] = inl ValueError.
Proof. repeat split; reflexivity. Qed.

(** Unfolds the plumbing of bodies so that a run computes. *)
Ltac unfold_body :=
  unfold call, call_or_None, format, emit, get_world, put_world, return_, raise;
  unfold mbind, mret, Body_bind, Body_ret, bind, pure;
  cbv beta iota zeta.

Ltac run := unfold_body; simpl.

(** ** The route table *)

Lemma lookup_get_only (a m b : string) :
  ({[ "get" := a ]} : gmap string string) !! m = Some b ↔ m = "get" ∧ b = a.
Proof.
  rewrite lookup_singleton_Some.
  split; [intros [<- <-]|intros [-> ->]]; done.
Qed.

Lemma lookup_get_post (a p m b : string) :
  (<[ "get" := a ]> {[ "post" := p ]} : gmap string string) !! m = Some b
  ↔ (m = "get" ∧ b = a) ∨ (m = "post" ∧ b = p).
Proof.
  rewrite lookup_insert_Some, lookup_singleton_Some. split.
  - intros [[<- <-]|[_ [<- <-]]]; [by left|by right].
  - intros [[-> ->]|[-> ->]]; [by left|by right].
Qed.

(** C4. The route table of the router maps methods to actions exactly so:
    GET on the prefix URL is [list]; on the [{lookup}/change] URL GET is
    [retrieve] and POST is [update]; on the [add] URL GET is [new] and POST is
    [create]; no route of the table maps any other method. *)
Theorem routes_method_map (url method act : string) :
  (∃ r, r ∈ DashboardRouter.routes ∧ route_url r = url ∧ route_action r method = Some act)
  ↔ (url, method, act) ∈ method_map.
Proof.
  unfold DashboardRouter.routes, method_map. split.
  - intros (r & Hr & <- & Hact).
    repeat (apply elem_of_cons in Hr as [->|Hr]); [| | | |by apply elem_of_nil in Hr];
      simpl in Hact |- *.
    + apply lookup_get_only in Hact as [-> ->]. set_solver.
    + apply lookup_get_post in Hact as [[-> ->]|[-> ->]]; set_solver.
    + apply lookup_get_post in Hact as [[-> ->]|[-> ->]]; set_solver.
    + done.
  - intros H.
    repeat (apply elem_of_cons in H as [H|H]); [| | | | |by apply elem_of_nil in H];
      injection H as -> -> ->.
    + eexists. split; [apply list_elem_of_here|]. split; [done|]. by apply lookup_get_only.
    + eexists. split; [apply list_elem_of_further, list_elem_of_here|].
      split; [done|]. apply lookup_get_post. by left.
    + eexists. split; [apply list_elem_of_further, list_elem_of_here|].
      split; [done|]. apply lookup_get_post. by right.
    + eexists. split; [do 2 apply list_elem_of_further; apply list_elem_of_here|].
      split; [done|]. apply lookup_get_post. by left.
    + eexists. split; [do 2 apply list_elem_of_further; apply list_elem_of_here|].
      split; [done|]. apply lookup_get_post. by right.
Qed.

Section ViewProperties.

Context (fw : Framework) (cfg : Settings).

(** ** The permission check *)

(** C5. [has_add_permission] answers exactly what the one call
    [request.user.has_perm] answers for the application label joined by a
    dot with the codename that [get_permission_codename] derives for ['add']
    from the options of the product model; that call is the only thing the
    method does to the world. *)
Theorem has_add_permission_single_auth_call {R} (self : ProductsDashboard) (w : World) :
  let perm := APP_LABEL cfg +:+ "." +:+
              get_permission_codename fw "add" (ProductModel_meta cfg) in
  has_add_permission (R:=R) fw cfg self w
  = Next (has_perm fw (user (request self)) perm)
         (mkWorld (metas w) (products w)
            (trace w ++ [EvHasPerm (user (request self)) perm])).
Proof.
  intros perm. unfold has_add_permission, has_add_permission_body, format.
  rewrite py_format_dotted. by run.
Qed.

(** ** Serializer selection *)

Lemma get_object_found {R} self w instance :
  fetch_object fw self (products w) = inr instance →
  get_object (R:=R) fw self w = Next instance (log EvGetObject w).
Proof. intros H. unfold get_object. by rewrite H. Qed.

Lemma get_object_failed {R} self w e :
  fetch_object fw self (products w) = inl e →
  get_object (R:=R) fw self w = Raised (FrameworkExc e) (log EvGetObject w).
Proof. intros H. unfold get_object. by rewrite H. Qed.

Lemma get_serializer_class_body_List (self : ProductsDashboard) (w : World) :
  suffix self = Some "List" →
  get_serializer_class_body fw cfg self w = Returned (list_serializer_class self) w.
Proof. intros Hsfx. unfold get_serializer_class_body. rewrite Hsfx. by run. Qed.

Lemma get_serializer_class_body_Instance (self : ProductsDashboard) (w : World) instance :
  suffix self = Some "Instance" →
  fetch_object fw self (products w) = inr instance →
  get_serializer_class_body fw cfg self w
  = Returned (default (ProductSerializer cfg)
                (detail_serializer_classes self !! label_lower (_meta instance)))
      (log EvGetObject w).
Proof.
  intros Hsfx Hfetch. unfold get_serializer_class_body, get_object.
  rewrite Hsfx. run. by rewrite Hfetch.
Qed.

Lemma get_serializer_class_body_New (self : ProductsDashboard) (w : World) :
  suffix self = Some "New" →
  get_serializer_class_body fw cfg self w
  = Returned (default (ProductSerializer cfg)
                (GET (request self) !! "model" ≫= (detail_serializer_classes self !!.)))
      w.
Proof.
  intros Hsfx. unfold get_serializer_class_body. rewrite Hsfx. run.
  by destruct (GET (request self) !! "model").
Qed.

(** C2. [get_serializer_class] selects by the suffix: ['List'] gives
    [list_serializer_class]; ['Instance'] gives the entry of
    [detail_serializer_classes] under the lower-cased label of the fetched
    instance, [ProductSerializer] when there is none; ['New'] gives the entry
    under the [model] GET parameter, [ProductSerializer] when the parameter
    or the entry is missing. *)
Theorem get_serializer_class_by_suffix {R} (self : ProductsDashboard) (w : World) :
  (suffix self = Some "List" →
     get_serializer_class (R:=R) fw cfg self w = Next (list_serializer_class self) w)
  ∧ (suffix self = Some "Instance" →
     ∀ instance, fetch_object fw self (products w) = inr instance →
       get_serializer_class (R:=R) fw cfg self w
       = Next (default (ProductSerializer cfg)
                 (detail_serializer_classes self !! label_lower (_meta instance)))
              (log EvGetObject w))
  ∧ (suffix self = Some "New" →
     get_serializer_class (R:=R) fw cfg self w
     = Next (default (ProductSerializer cfg)
               (GET (request self) !! "model" ≫= (detail_serializer_classes self !!.)))
            w).
Proof.
  unfold get_serializer_class. split; [|split].
  - intros Hsfx. by apply call_Returned, get_serializer_class_body_List.
  - intros Hsfx instance Hfetch.
    by apply call_Returned, get_serializer_class_body_Instance.
  - intros Hsfx. by apply call_Returned, get_serializer_class_body_New.
Qed.

(** C9. [get_serializer_class] answers for every suffix: outside ['List'],
    ['Instance'] and ['New'] it returns [list_serializer_class]; whatever
    the suffix it returns a class unless the fetch of the instance fails,
    whose error it passes on; and no run reaches the [raise] of
    [NotImplementedError] behind the last [return]. *)
Theorem get_serializer_class_total {R} (self : ProductsDashboard) (w : World) :
  (¬ known_suffix (suffix self) →
     get_serializer_class (R:=R) fw cfg self w = Next (list_serializer_class self) w)
  ∧ ((∃ cls w', get_serializer_class (R:=R) fw cfg self w = Next cls w')
     ∨ (∃ e, suffix self = Some "Instance"
             ∧ fetch_object fw self (products w) = inl e
             ∧ get_serializer_class (R:=R) fw cfg self w
               = Raised (FrameworkExc e) (log EvGetObject w)))
  ∧ (∀ msg w', get_serializer_class_body fw cfg self w ≠ Raised (NotImplementedError msg) w'
               ∧ get_serializer_class (R:=R) fw cfg self w ≠ Raised (NotImplementedError msg) w').
Proof.
  unfold get_serializer_class, get_serializer_class_body, known_suffix.
  split; [|split].
  - intros Hsfx. run. repeat case_bool_decide; naive_solver.
  - run. unfold get_object.
    repeat case_bool_decide; try (left; by eauto).
    destruct (fetch_object fw self (products w)) as [e|i] eqn:Hfetch; [|left; by eauto].
    right. by eauto.
  - intros msg w'. run. unfold get_object.
    repeat case_bool_decide; try done;
      by destruct (fetch_object fw self (products w)).
Qed.

(** ** What the helpers leave untouched *)

(** Selecting the class only looks an instance up: the class attributes
    and the product table stay as they are. *)
Lemma get_serializer_class_body_frame (self : ProductsDashboard) (w : World) :
  let w' := world_of (get_serializer_class_body fw cfg self w) in
  metas w' = metas w ∧ products w' = products w
  ∧ (trace w' = trace w ∨ trace w' = (trace w ++ [EvGetObject])%list).
Proof.
  unfold get_serializer_class_body. run. unfold get_object.
  repeat case_bool_decide; simpl; try by auto.
  destruct (fetch_object fw self (products w)); simpl; by auto.
Qed.

Lemma get_list_display_body_frame (self : ProductsDashboard) (w : World) :
  world_of (get_list_display_body self w) = w.
Proof.
  unfold get_list_display_body, getattr_Meta, getattr_fields. run.
  destruct (list_display self); [done|]. simpl.
  destruct (metas w !! Meta (list_serializer_class self)) as [m|]; [|done].
  by destruct (fields m).
Qed.

Lemma get_list_display_body_Returned (self : ProductsDashboard) (w w' : World) ld :
  get_list_display_body self w = Returned ld w' → w' = w.
Proof.
  intros H. pose proof (get_list_display_body_frame self w) as Hw.
  by rewrite H in Hw.
Qed.

(** [kwargs.update(context=..., label=...)] leaves [many] alone. *)
Lemma many_after_update (kwargs : gmap string PyArg) (c l : PyArg) :
  <["label" := l]> (<["context" := c]> kwargs) !! "many" = kwargs !! "many".
Proof. by rewrite !lookup_insert_ne. Qed.

(** ** The class-level side effect of [get_serializer] *)

(** C10. With a true [many] keyword [get_serializer] rebinds [Meta.fields]
    of the selected class to ['pk'] followed by the list display fields; the
    new value is what any later reader of the class finds.  With [many]
    absent or false no class attribute changes. *)
Theorem get_serializer_many_rebinds_Meta_fields {R} (self : ProductsDashboard)
    (args : list Instance) (kwargs : gmap string PyArg) (w : World) :
  (∀ v cls w1 ld w1' m,
     kwargs !! "many" = Some v → truthy v = true →
     get_serializer_class_body fw cfg self w = Returned cls w1 →
     get_list_display_body self w1 = Returned ld w1' →
     metas w !! Meta cls = Some m →
     ∃ s w2,
       get_serializer (R:=R) fw cfg self args kwargs w = Next s w2
       ∧ ser_class s = cls
       ∧ metas w2 = <[Meta cls := mkMeta (Some ("pk" :: ld)) (model m)]> (metas w)
       ∧ getattr_Meta (R:=R) cls w2 = Next (mkMeta (Some ("pk" :: ld)) (model m)) w2)
  ∧ (kwargs !! "many" = None ∨ kwargs !! "many" = Some (ArgBool false) →
     metas (world_of (get_serializer (R:=R) fw cfg self args kwargs w)) = metas w).
Proof.
  split.
  - intros v cls w1 ld w1' m Hmany Hv Hcls Hld Hm.
    pose proof (get_serializer_class_body_frame self w) as (Hmetas & _ & _).
    rewrite Hcls in Hmetas. simpl in Hmetas.
    apply get_list_display_body_Returned in Hld as Heq. subst w1'.
    unfold get_serializer, get_serializer_body, get_serializer_class,
      get_list_display, get_serializer_context, setattr_Meta_fields, getattr_Meta.
    unfold_body. rewrite Hcls. cbv beta iota zeta.
    rewrite many_after_update, Hmany.
    change (default (ArgBool false) (Some v)) with v. rewrite Hv, Hld.
    cbv beta iota zeta. rewrite Hmetas, Hm.
    eexists _, _. split; [done|]. simpl. rewrite Hmetas.
    split; [done|]. split; [done|]. by rewrite lookup_insert_eq.
  - intros Hmany.
    pose proof (get_serializer_class_body_frame self w) as (Hmetas & _ & _).
    unfold get_serializer, get_serializer_body, get_serializer_class,
      get_serializer_context.
    assert (truthy (default (ArgBool false) (kwargs !! "many")) = false) as Hfalse
      by (by destruct Hmany as [->| ->]).
    unfold_body.
    destruct (get_serializer_class_body fw cfg self w) as [[]|cls w1|]; [|done].
    cbv beta iota zeta. by rewrite many_after_update, Hfalse.
Qed.

(** ** The serializer an action works with *)

(** Without a [many] keyword [get_serializer] builds the serializer of the
    selected class and touches nothing else. *)
Lemma get_serializer_without_many {R} (self : ProductsDashboard)
    (args : list Instance) (kwargs : gmap string PyArg) (w : World) :
  kwargs !! "many" = None →
  get_serializer (R:=R) fw cfg self args kwargs w
  = match get_serializer_class_body fw cfg self w with
    | Next f _ => match f with end
    | Returned cls w1 => Next (mkSerializer cls args (updated_kwargs self kwargs) None) w1
    | Raised e w1 => Raised e w1
    end.
Proof.
  intros Hmany.
  unfold get_serializer, get_serializer_body, get_serializer_class,
    get_serializer_context, updated_kwargs.
  unfold_body.
  destruct (get_serializer_class_body fw cfg self w) as [[]|cls w1|]; [|done].
  cbv beta iota zeta. by rewrite many_after_update, Hmany.
Qed.

Lemma no_save_since_refl w : no_save_since w w.
Proof.
  split; [done|]. exists []. split; [by rewrite app_nil_r|].
  intros s. apply not_elem_of_nil.
Qed.

Lemma no_save_since_trans w1 w2 w3 :
  no_save_since w1 w2 → no_save_since w2 w3 → no_save_since w1 w3.
Proof.
  intros [Hp1 (evs1 & Ht1 & Hn1)] [Hp2 (evs2 & Ht2 & Hn2)].
  split; [congruence|]. exists (evs1 ++ evs2)%list.
  split; [by rewrite Ht2, Ht1, app_assoc|].
  intros s [?|?]%elem_of_app; [by eapply Hn1|by eapply Hn2].
Qed.

Lemma no_save_since_log ev w :
  (∀ s, ev ≠ EvSave s) → no_save_since w (log ev w).
Proof.
  intros Hev. split; [done|]. exists [ev]. split; [done|].
  intros s Hs%list_elem_of_singleton. exact (Hev s (eq_sym Hs)).
Qed.

Lemma get_serializer_class_body_no_save (self : ProductsDashboard) (w : World) :
  no_save_since w (world_of (get_serializer_class_body fw cfg self w)).
Proof.
  pose proof (get_serializer_class_body_frame self w) as (_ & Hp & Ht).
  split; [done|]. destruct Ht as [Ht|Ht].
  - exists []. split; [by rewrite app_nil_r|]. intros s. apply not_elem_of_nil.
  - exists [EvGetObject]. split; [done|]. by intros s ?%list_elem_of_singleton.
Qed.

Lemma get_serializer_no_save {R} (self : ProductsDashboard)
    (args : list Instance) (kwargs : gmap string PyArg) (w : World) :
  kwargs !! "many" = None →
  no_save_since w (world_of (get_serializer (R:=R) fw cfg self args kwargs w)).
Proof.
  intros Hmany. rewrite get_serializer_without_many by done.
  pose proof (get_serializer_class_body_no_save self w) as H.
  by destruct (get_serializer_class_body fw cfg self w) as [[]| |].
Qed.

Lemma data_kwargs_no_many (d : gmap string string) :
  ({[ "data" := ArgData d ]} : gmap string PyArg) !! "many" = None.
Proof. by apply lookup_singleton_ne. Qed.

(** ** create and update *)

(** What [create] does once it holds its serializer. *)
Lemma create_with_serializer {R} (self : ProductsDashboard) (request : Request)
    (w : World) (s : Serializer) (w1 : World) :
  get_serializer (R:=HttpResponse) fw cfg self []
    {[ "data" := ArgData (data request) ]} w = Next s w1 →
  create (R:=R) fw cfg self request w
  = let s' := validated fw s w1 in
    let w2 := log (EvIsValid s) w1 in
    if bool_decide (run_validation fw s (products w1) = ∅) then
      match perform_save fw s' (products w1) with
      | inl e => Raised (FrameworkExc e) (log (EvSave s') w2)
      | inr db => Next (redirect fw "dashboard:product-list")
                    (set_products db (log (EvSave s') w2))
      end
    else Next (Response {[ "serializer" := RSerializer s' ]}) w2.
Proof.
  intros Hser. unfold create, create_body, call.
  rewrite (bind_Next _ _ _ _ _ Hser).
  unfold is_valid, save, validated. unfold_body.
  case_bool_decide; [|done]. simpl.
  by destruct (perform_save fw _ (products w1)).
Qed.

(** What [update] does once it holds the instance and its serializer. *)
Lemma update_with_serializer {R} (self : ProductsDashboard) (request : Request)
    (w : World) (instance : Instance) (s : Serializer) (w1 : World) :
  fetch_object fw self (products w) = inr instance →
  get_serializer (R:=HttpResponse) fw cfg self [instance]
    {[ "data" := ArgData (data request) ]} (log EvGetObject w) = Next s w1 →
  update (R:=R) fw cfg self request w
  = let s' := validated fw s w1 in
    let w2 := log (EvIsValid s) w1 in
    if bool_decide (run_validation fw s (products w1) = ∅) then
      match perform_save fw s' (products w1) with
      | inl e => Raised (FrameworkExc e) (log (EvSave s') w2)
      | inr db => Next (Some (redirect fw "dashboard:product-list"))
                    (set_products db (log (EvSave s') w2))
      end
    else Next None w2.
Proof.
  intros Hfetch Hser. unfold update, update_body, call_or_None.
  rewrite (bind_Next _ _ _ _ _ (get_object_found self w instance Hfetch)).
  rewrite (bind_Next _ _ _ _ _ Hser).
  unfold is_valid, save, validated. unfold_body.
  case_bool_decide; [|done]. simpl.
  by destruct (perform_save fw _ (products w1)).
Qed.

(** [create] shows the form again when the data are not valid: the response
    holds the serializer with the errors of the validation. *)
Lemma create_invalid_rerenders {R} (self : ProductsDashboard) (request : Request)
    (w : World) (s : Serializer) (w1 : World) :
  get_serializer (R:=HttpResponse) fw cfg self []
    {[ "data" := ArgData (data request) ]} w = Next s w1 →
  run_validation fw s (products w1) ≠ ∅ →
  create (R:=R) fw cfg self request w
  = Next (Response {[ "serializer" := RSerializer (validated fw s w1) ]})
      (log (EvIsValid s) w1).
Proof.
  intros Hser Hinvalid. rewrite (create_with_serializer _ _ _ _ _ Hser).
  cbv zeta. by rewrite bool_decide_eq_false_2.
Qed.

(** [update] has no statement for data that are not valid: it falls off its
    end and returns [None], no response at all. *)
Lemma update_invalid_returns_None {R} (self : ProductsDashboard) (request : Request)
    (w : World) (instance : Instance) (s : Serializer) (w1 : World) :
  fetch_object fw self (products w) = inr instance →
  get_serializer (R:=HttpResponse) fw cfg self [instance]
    {[ "data" := ArgData (data request) ]} (log EvGetObject w) = Next s w1 →
  run_validation fw s (products w1) ≠ ∅ →
  update (R:=R) fw cfg self request w = Next None (log (EvIsValid s) w1).
Proof.
  intros Hfetch Hser Hinvalid.
  rewrite (update_with_serializer _ _ _ _ _ _ Hfetch Hser).
  cbv zeta. by rewrite bool_decide_eq_false_2.
Qed.

(** C3. On a POST whose data the serializer finds valid, [create] and
    [update] call the serializer's [save] and then return the redirect to
    the product list; when [save] raises, its error is what they raise. *)
Theorem valid_post_saves_then_redirects {R} (self : ProductsDashboard)
    (request : Request) (w : World) :
  (∀ s w1,
     get_serializer (R:=HttpResponse) fw cfg self []
       {[ "data" := ArgData (data request) ]} w = Next s w1 →
     run_validation fw s (products w1) = ∅ →
     let saved := (trace w1 ++ [EvIsValid s; EvSave (validated fw s w1)])%list in
     create (R:=R) fw cfg self request w
     = match perform_save fw (validated fw s w1) (products w1) with
       | inr db => Next (HttpResponseRedirect (reverse fw "dashboard:product-list" []))
                     (mkWorld (metas w1) db saved)
       | inl e => Raised (FrameworkExc e) (mkWorld (metas w1) (products w1) saved)
       end)
  ∧ (∀ instance s w1,
     fetch_object fw self (products w) = inr instance →
     get_serializer (R:=HttpResponse) fw cfg self [instance]
       {[ "data" := ArgData (data request) ]} (log EvGetObject w) = Next s w1 →
     run_validation fw s (products w1) = ∅ →
     let saved := (trace w1 ++ [EvIsValid s; EvSave (validated fw s w1)])%list in
     update (R:=R) fw cfg self request w
     = match perform_save fw (validated fw s w1) (products w1) with
       | inr db => Next (Some (HttpResponseRedirect (reverse fw "dashboard:product-list" [])))
                     (mkWorld (metas w1) db saved)
       | inl e => Raised (FrameworkExc e) (mkWorld (metas w1) (products w1) saved)
       end).
Proof.
  split.
  - intros s w1 Hser Hvalid saved.
    rewrite (create_with_serializer _ _ _ _ _ Hser). cbv zeta.
    rewrite bool_decide_eq_true_2 by done. subst saved.
    unfold log, set_products, redirect. simpl. rewrite <- !app_assoc. simpl.
    by destruct (perform_save fw _ (products w1)).
  - intros instance s w1 Hfetch Hser Hvalid saved.
    rewrite (update_with_serializer _ _ _ _ _ _ Hfetch Hser). cbv zeta.
    rewrite bool_decide_eq_true_2 by done. subst saved.
    unfold log, set_products, redirect. simpl. rewrite <- !app_assoc. simpl.
    by destruct (perform_save fw _ (products w1)).
Qed.

(** C8. On a POST whose data the serializer finds invalid neither [create]
    nor [update] calls [save]: the product table they leave is the one they
    found, and no [save] is among the calls they made. *)
Theorem invalid_post_never_saves {R} (self : ProductsDashboard)
    (request : Request) (w : World) :
  (∀ s w1,
     get_serializer (R:=HttpResponse) fw cfg self []
       {[ "data" := ArgData (data request) ]} w = Next s w1 →
     run_validation fw s (products w1) ≠ ∅ →
     no_save_since w (world_of (create (R:=R) fw cfg self request w)))
  ∧ (∀ instance s w1,
     fetch_object fw self (products w) = inr instance →
     get_serializer (R:=HttpResponse) fw cfg self [instance]
       {[ "data" := ArgData (data request) ]} (log EvGetObject w) = Next s w1 →
     run_validation fw s (products w1) ≠ ∅ →
     no_save_since w (world_of (update (R:=R) fw cfg self request w))).
Proof.
  split.
  - intros s w1 Hser Hinvalid.
    rewrite (create_invalid_rerenders _ _ _ _ _ Hser Hinvalid). simpl.
    pose proof (get_serializer_no_save (R:=HttpResponse) self []
      {[ "data" := ArgData (data request) ]} w (data_kwargs_no_many _)) as H.
    rewrite Hser in H. simpl in H.
    eapply no_save_since_trans; [exact H|]. by apply no_save_since_log.
  - intros instance s w1 Hfetch Hser Hinvalid.
    rewrite (update_invalid_returns_None _ _ _ _ _ _ Hfetch Hser Hinvalid). simpl.
    pose proof (get_serializer_no_save (R:=HttpResponse) self [instance]
      {[ "data" := ArgData (data request) ]} (log EvGetObject w)
      (data_kwargs_no_many _)) as H.
    rewrite Hser in H. simpl in H.
    eapply no_save_since_trans; [by apply (no_save_since_log EvGetObject)|].
    eapply no_save_since_trans; [exact H|]. by apply no_save_since_log.
Qed.

(** ** retrieve *)

(** C7. On the change route [retrieve] fetches the instance, builds the
    serializer of the selected class on it and returns a response holding
    exactly that serializer and that instance; the class attributes and the
    product table are as before, and fetching is all it asked of the
    framework. *)
Theorem retrieve_passes_through {R} (self : ProductsDashboard) (request : Request)
    (w : World) (instance : Instance) :
  suffix self = Some "Instance" →
  fetch_object fw self (products w) = inr instance →
  let cls := default (ProductSerializer cfg)
               (detail_serializer_classes self !! label_lower (_meta instance)) in
  let serializer := mkSerializer cls [instance] (updated_kwargs self ∅) None in
  retrieve (R:=R) fw cfg self request w
  = Next (Response (<[ "serializer" := RSerializer serializer ]>
                      {[ "instance" := RInstance instance ]}))
      (mkWorld (metas w) (products w) (trace w ++ [EvGetObject; EvGetObject])).
Proof.
  intros Hsfx Hfetch cls serializer.
  unfold retrieve, retrieve_body. apply call_Returned.
  rewrite (bind_Next _ _ _ _ _ (get_object_found self w instance Hfetch)).
  erewrite bind_Next; [reflexivity|].
  rewrite get_serializer_without_many by apply lookup_empty.
  rewrite (get_serializer_class_body_Instance self (log EvGetObject w) instance)
    by done.
  subst serializer cls. unfold log. simpl. by rewrite <- app_assoc.
Qed.

(** ** Breadcrumbs *)

(** C6. The breadcrumbs start with the root entry of the dashboard and the
    plural verbose name of the product model linked to the product list.
    For ['Instance'] the string of the fetched instance follows; for
    ['New'] the translation of the ['Add {}'] message with the verbose name
    of the model of the selected serializer filled in by [str.format], which
    reads "Add " and that name when the catalogue leaves the message as it
    is; for any other suffix nothing follows. *)
Theorem get_breadcrumbs_entries {R} (self : ProductsDashboard) (w : World) :
  let root := (ugettext_lazy fw "Dashboard", reverse fw "dashboard:root" []) in
  let plist := (ProductModel_Meta_verbose_name_plural cfg,
                reverse fw "dashboard:product-list" []) in
  let here := path_info (request self) in
  (∀ crumbs w', get_breadcrumbs (R:=R) fw cfg self w = Next crumbs w' →
     ∃ rest, crumbs = root :: plist :: rest)
  ∧ (suffix self = Some "Instance" →
     ∀ instance, fetch_object fw self (products w) = inr instance →
       get_breadcrumbs (R:=R) fw cfg self w
       = Next [root; plist; (inst_str instance, here)] (log EvGetObject w))
  ∧ (suffix self = Some "New" →
     let cls := default (ProductSerializer cfg)
                  (GET (request self) !! "model" ≫= (detail_serializer_classes self !!.)) in
     ∀ m options,
       metas w !! Meta cls = Some m →
       model m = Some options →
       (∀ label,
          py_format (str_format_beyond fw) (ugettext_lazy fw "Add {}")
            [verbose_name options] = inr label →
          get_breadcrumbs (R:=R) fw cfg self w = Next [root; plist; (label, here)] w)
       ∧ (ugettext_lazy fw "Add {}" = "Add {}" →
          get_breadcrumbs (R:=R) fw cfg self w
          = Next [root; plist; ("Add " +:+ verbose_name options, here)] w))
  ∧ (suffix self ≠ Some "Instance" → suffix self ≠ Some "New" →
     get_breadcrumbs (R:=R) fw cfg self w = Next [root; plist] w).
Proof.
  intros root plist here.
  unfold get_breadcrumbs, get_breadcrumbs_body, DashboardRouter.get_breadcrumbs,
    DashboardRouter.get_breadcrumbs_body.
  split; [|split; [|split]].
  - intros crumbs w'.
    unfold get_serializer_class, getattr_Meta, getattr_model, get_object. run.
    repeat case_bool_decide.
    + destruct (fetch_object fw self (products w)); [done|].
      intros [= <- _]. by eexists.
    + destruct (get_serializer_class_body fw cfg self w) as [[]|c w1|]; [|done].
      destruct (metas w1 !! Meta c) as [m|]; [|done]. simpl.
      destruct (model m); [|done]. simpl.
      destruct (py_format _ _ _); [done|].
      intros [= <- _]. by eexists.
    + intros [= <- _]. by eexists.
  - intros Hsfx instance Hfetch. unfold get_object. run.
    rewrite bool_decide_eq_true_2 by done. by rewrite Hfetch.
  - intros Hsfx m options Hm Hmodel.
    pose proof (get_serializer_class_body_New self w Hsfx) as Hcls.
    assert (∀ label,
              py_format (str_format_beyond fw) (ugettext_lazy fw "Add {}")
                [verbose_name options] = inr label →
              call (R':=R) (get_breadcrumbs_body fw cfg self) w
              = Next [root; plist; (label, here)] w) as Hlabel.
    { intros label Hlabel.
      unfold get_breadcrumbs_body, DashboardRouter.get_breadcrumbs,
        DashboardRouter.get_breadcrumbs_body, get_serializer_class, getattr_Meta,
        getattr_model.
      run.
      rewrite bool_decide_eq_false_2 by (by rewrite Hsfx).
      rewrite bool_decide_eq_true_2 by done.
      rewrite Hcls, Hm. simpl. rewrite Hmodel. simpl. by rewrite Hlabel. }
    split; [exact Hlabel|].
    intros Huntranslated. apply Hlabel. by rewrite Huntranslated, py_format_Add.
  - intros Hinst Hnew. run. by rewrite !bool_decide_eq_false_2.
Qed.

End ViewProperties.

(** * The methods at work in the small shop *)

Lemma get_serializer_class_by_suffix_witness :
  get_serializer_class (R:=unit) Demo.fw Demo.cfg Demo.list_view Demo.world
  = Next (list_serializer_class Demo.list_view) Demo.world
  ∧ get_serializer_class (R:=unit) Demo.fw Demo.cfg (Demo.change_view Demo.get_request) Demo.world
    = Next (default (ProductSerializer Demo.cfg)
              (detail_serializer_classes (Demo.change_view Demo.get_request)
                 !! label_lower (_meta (Demo.card 1 "SD 4GB"))))
        (log EvGetObject Demo.world)
  ∧ get_serializer_class (R:=unit) Demo.fw Demo.cfg (Demo.add_view Demo.add_request) Demo.world
    = Next (default (ProductSerializer Demo.cfg)
              (GET (request (Demo.add_view Demo.add_request)) !! "model"
                 ≫= (detail_serializer_classes (Demo.add_view Demo.add_request) !!.)))
        Demo.world.
Proof.
  split; [|split].
  - apply (proj1 (get_serializer_class_by_suffix Demo.fw Demo.cfg Demo.list_view Demo.world)).
    reflexivity.
  - apply (proj1 (proj2 (get_serializer_class_by_suffix Demo.fw Demo.cfg
                           (Demo.change_view Demo.get_request) Demo.world))).
    + reflexivity.
    + vm_compute. reflexivity.
  - apply (proj2 (proj2 (get_serializer_class_by_suffix Demo.fw Demo.cfg
                           (Demo.add_view Demo.add_request) Demo.world))).
    reflexivity.
Defined.

Example change_view_selects_SmartCardSerializer :
  get_serializer_class (R:=unit) Demo.fw Demo.cfg (Demo.change_view Demo.get_request) Demo.world
  = Next Demo.SmartCardSerializer (log EvGetObject Demo.world).
Proof. vm_compute. reflexivity. Qed.

Lemma get_serializer_class_total_witness :
  ¬ known_suffix (suffix Demo.detail_route_view)
  ∧ get_serializer_class (R:=unit) Demo.fw Demo.cfg Demo.detail_route_view Demo.world
    = Next (list_serializer_class Demo.detail_route_view) Demo.world.
Proof.
  assert (¬ known_suffix (suffix Demo.detail_route_view)) as Hsfx
    by (intros [H|[H|H]]; discriminate H).
  split; [exact Hsfx|].
  exact (proj1 (get_serializer_class_total Demo.fw Demo.cfg Demo.detail_route_view Demo.world)
           Hsfx).
Defined.

Lemma get_serializer_many_rebinds_Meta_fields_witness :
  (∃ s w2,
     get_serializer (R:=unit) Demo.fw Demo.cfg Demo.list_view [] Demo.many_kwargs Demo.world
     = Next s w2
     ∧ ser_class s = Demo.ProductSummarySerializer
     ∧ metas w2 = <[Meta Demo.ProductSummarySerializer :=
                      mkMeta (Some ("pk" :: ["product_name"; "price"])) (model Demo.summary_Meta)]>
                    (metas Demo.world)
     ∧ getattr_Meta (R:=unit) Demo.ProductSummarySerializer w2
       = Next (mkMeta (Some ("pk" :: ["product_name"; "price"])) (model Demo.summary_Meta)) w2)
  ∧ metas (world_of (get_serializer (R:=unit) Demo.fw Demo.cfg Demo.list_view [] ∅ Demo.world))
    = metas Demo.world.
Proof.
  split.
  - apply (proj1 (get_serializer_many_rebinds_Meta_fields Demo.fw Demo.cfg
                    Demo.list_view [] Demo.many_kwargs Demo.world)
             (ArgBool true) Demo.ProductSummarySerializer Demo.world
             ["product_name"; "price"] Demo.world Demo.summary_Meta).
    + vm_compute. reflexivity.
    + reflexivity.
    + vm_compute. reflexivity.
    + vm_compute. reflexivity.
    + vm_compute. reflexivity.
  - apply (proj2 (get_serializer_many_rebinds_Meta_fields Demo.fw Demo.cfg
                    Demo.list_view [] ∅ Demo.world)).
    left. vm_compute. reflexivity.
Defined.

(** Two list requests in a row: the second one starts from the fields the
    first one left on the class, so ['pk'] is there twice. *)
Example list_fields_grow_across_requests :
  ∃ s1 w1 s2 w2,
    get_serializer (R:=unit) Demo.fw Demo.cfg Demo.list_view [] Demo.many_kwargs Demo.world
    = Next s1 w1
    ∧ get_serializer (R:=unit) Demo.fw Demo.cfg Demo.list_view [] Demo.many_kwargs w1
      = Next s2 w2
    ∧ fields <$> (metas w1 !! "ProductSummarySerializer.Meta")
      = Some (Some ["pk"; "product_name"; "price"])
    ∧ fields <$> (metas w2 !! "ProductSummarySerializer.Meta")
      = Some (Some ["pk"; "pk"; "product_name"; "price"]).
Proof. vm_compute. eexists _, _, _, _. repeat split; reflexivity. Qed.

Lemma valid_post_saves_then_redirects_witness :
  (∃ db, perform_save Demo.fw
           (validated Demo.fw (Demo.posted (Demo.add_view Demo.add_request) [] Demo.good_post) Demo.world)
           (products Demo.world) = inr db
     ∧ create (R:=unit) Demo.fw Demo.cfg (Demo.add_view Demo.add_request) Demo.good_post Demo.world
       = Next (HttpResponseRedirect "/dashboard:product-list")
           (mkWorld (metas Demo.world) db
              [EvIsValid (Demo.posted (Demo.add_view Demo.add_request) [] Demo.good_post);
               EvSave (validated Demo.fw
                         (Demo.posted (Demo.add_view Demo.add_request) [] Demo.good_post) Demo.world)]))
  ∧ (∃ db, update (R:=unit) Demo.fw Demo.cfg (Demo.change_view Demo.good_post)
             Demo.good_post Demo.world
           = Next (Some (HttpResponseRedirect "/dashboard:product-list"))
               (mkWorld (metas Demo.world) db
                  [EvGetObject; EvGetObject;
                   EvIsValid (Demo.posted (Demo.change_view Demo.good_post)
                                [Demo.card 1 "SD 4GB"] Demo.good_post);
                   EvSave (validated Demo.fw
                             (Demo.posted (Demo.change_view Demo.good_post)
                                [Demo.card 1 "SD 4GB"] Demo.good_post) Demo.fetched_twice)])
           ∧ inst_str <$> (db !! 1%Z) = Some "SD 8GB").
Proof.
  split.
  - eexists. split; [vm_compute; reflexivity|].
    etrans.
    + apply (proj1 (valid_post_saves_then_redirects Demo.fw Demo.cfg
                      (Demo.add_view Demo.add_request) Demo.good_post Demo.world)
               (Demo.posted (Demo.add_view Demo.add_request) [] Demo.good_post) Demo.world).
      * vm_compute. reflexivity.
      * vm_compute. reflexivity.
    + vm_compute. reflexivity.
  - eexists. split.
    + etrans.
      * apply (proj2 (valid_post_saves_then_redirects Demo.fw Demo.cfg
                        (Demo.change_view Demo.good_post) Demo.good_post Demo.world)
                 (Demo.card 1 "SD 4GB")
                 (Demo.posted (Demo.change_view Demo.good_post) [Demo.card 1 "SD 4GB"] Demo.good_post)
                 Demo.fetched_twice).
        -- vm_compute. reflexivity.
        -- vm_compute. reflexivity.
        -- vm_compute. reflexivity.
      * vm_compute. reflexivity.
    + vm_compute. reflexivity.
Defined.

Lemma invalid_post_never_saves_witness :
  no_save_since Demo.world
    (world_of (create (R:=unit) Demo.fw Demo.cfg (Demo.add_view Demo.add_request)
                 Demo.bad_post Demo.world))
  ∧ no_save_since Demo.world
      (world_of (update (R:=unit) Demo.fw Demo.cfg (Demo.change_view Demo.bad_post)
                   Demo.bad_post Demo.world)).
Proof.
  split.
  - apply (proj1 (invalid_post_never_saves Demo.fw Demo.cfg
                    (Demo.add_view Demo.add_request) Demo.bad_post Demo.world)
             (Demo.posted (Demo.add_view Demo.add_request) [] Demo.bad_post) Demo.world).
    + vm_compute. reflexivity.
    + vm_compute. discriminate.
  - apply (proj2 (invalid_post_never_saves Demo.fw Demo.cfg
                    (Demo.change_view Demo.bad_post) Demo.bad_post Demo.world)
             (Demo.card 1 "SD 4GB")
             (Demo.posted (Demo.change_view Demo.bad_post) [Demo.card 1 "SD 4GB"] Demo.bad_post)
             Demo.fetched_twice).
    + vm_compute. reflexivity.
    + vm_compute. reflexivity.
    + vm_compute. discriminate.
Defined.

Lemma retrieve_passes_through_witness :
  retrieve (R:=unit) Demo.fw Demo.cfg (Demo.change_view Demo.get_request)
    Demo.get_request Demo.world
  = Next (Response
            (<[ "serializer" :=
                  RSerializer (mkSerializer Demo.SmartCardSerializer [Demo.card 1 "SD 4GB"]
                                 (updated_kwargs (Demo.change_view Demo.get_request) ∅) None) ]>
               {[ "instance" := RInstance (Demo.card 1 "SD 4GB") ]}))
      (mkWorld (metas Demo.world) (products Demo.world) [EvGetObject; EvGetObject]).
Proof.
  etrans.
  - apply (retrieve_passes_through Demo.fw Demo.cfg (Demo.change_view Demo.get_request)
             Demo.get_request Demo.world (Demo.card 1 "SD 4GB")).
    + reflexivity.
    + vm_compute. reflexivity.
  - vm_compute. reflexivity.
Defined.

Lemma get_breadcrumbs_entries_witness :
  get_breadcrumbs (R:=unit) Demo.fw Demo.cfg (Demo.change_view Demo.get_request) Demo.world
  = Next [Demo.demo_root; Demo.demo_products; ("SD 4GB", "/dashboard/products/")] Demo.fetched
  ∧ get_breadcrumbs (R:=unit) Demo.fw Demo.cfg (Demo.add_view Demo.add_request) Demo.world
    = Next [Demo.demo_root; Demo.demo_products;
            ("Add Smart Card", "/dashboard/products/add/")] Demo.world
  ∧ get_breadcrumbs (R:=unit) Demo.fw Demo.cfg (Demo.add_view Demo.add_request) Demo.world
    = Next [Demo.demo_root; Demo.demo_products;
            ("Add " +:+ verbose_name Demo.smartcard_options, "/dashboard/products/add/")]
        Demo.world
  ∧ get_breadcrumbs (R:=unit) Demo.fw Demo.cfg Demo.list_view Demo.world
    = Next [Demo.demo_root; Demo.demo_products] Demo.world.
Proof.
  split; [|split; [|split]].
  - apply (proj1 (proj2 (get_breadcrumbs_entries Demo.fw Demo.cfg
                           (Demo.change_view Demo.get_request) Demo.world))
             eq_refl (Demo.card 1 "SD 4GB")).
    vm_compute. reflexivity.
  - apply (proj1 (proj1 (proj2 (proj2 (get_breadcrumbs_entries (R:=unit) Demo.fw Demo.cfg
                                         (Demo.add_view Demo.add_request) Demo.world)))
                    eq_refl
                    (mkMeta (Some ["product_name"; "storage"]) (Some Demo.smartcard_options))
                    Demo.smartcard_options
                    ltac:(vm_compute; reflexivity) eq_refl)
             "Add Smart Card").
    vm_compute. reflexivity.
  - apply (proj2 (proj1 (proj2 (proj2 (get_breadcrumbs_entries (R:=unit) Demo.fw Demo.cfg
                                         (Demo.add_view Demo.add_request) Demo.world)))
                    eq_refl
                    (mkMeta (Some ["product_name"; "storage"]) (Some Demo.smartcard_options))
                    Demo.smartcard_options
                    ltac:(vm_compute; reflexivity) eq_refl)).
    reflexivity.
  - apply (proj2 (proj2 (proj2 (get_breadcrumbs_entries Demo.fw Demo.cfg
                                  Demo.list_view Demo.world)))).
    + discriminate.
    + discriminate.
Defined.

(** With the German catalogue the label of the add route is not "Add "
    followed by the verbose name: the name comes first. *)
Lemma get_breadcrumbs_entries_counterexample :
  get_breadcrumbs (R:=unit) DemoList.german_fw Demo.cfg (Demo.add_view Demo.add_request)
    Demo.world
  = Next [Demo.demo_root; Demo.demo_products;
          ("Smart Card hinzufuegen", "/dashboard/products/add/")] Demo.world
  ∧ ¬ (∃ crumbs w',
         get_breadcrumbs (R:=unit) DemoList.german_fw Demo.cfg
           (Demo.add_view Demo.add_request) Demo.world = Next crumbs w'
         ∧ crumbs !! 2
           = Some ("Add " +:+ verbose_name Demo.smartcard_options,
                   "/dashboard/products/add/")).
Proof.
  assert (get_breadcrumbs (R:=unit) DemoList.german_fw Demo.cfg
            (Demo.add_view Demo.add_request) Demo.world
          = Next [Demo.demo_root; Demo.demo_products;
                  ("Smart Card hinzufuegen", "/dashboard/products/add/")] Demo.world)
    as Hrun by (vm_compute; reflexivity).
  split; [exact Hrun|].
  intros (crumbs & w' & Hcrumbs & Hthird). rewrite Hrun in Hcrumbs.
  injection Hcrumbs as <- _. vm_compute in Hthird. discriminate Hthird.
Qed.

(** C1. A POST of invalid data to the change route: the serializer rejects
    the data, and [update] returns [None] where a response showing the form
    with the errors is due.  [create], given the same data on the add route,
    does return that response, with the errors on its serializer. *)
Theorem update_invalid_post_returns_no_response :
  let rejected := Demo.posted (Demo.change_view Demo.bad_post) [Demo.card 1 "SD 4GB"] Demo.bad_post in
  run_validation Demo.fw rejected (products Demo.world)
  = {[ "product_name" := ["This field is required."] ]}
  ∧ update (R:=unit) Demo.fw Demo.cfg (Demo.change_view Demo.bad_post) Demo.bad_post Demo.world
    = Next None
        (mkWorld (metas Demo.world) (products Demo.world)
           [EvGetObject; EvGetObject; EvIsValid rejected])
  ∧ ∃ s w',
      create (R:=unit) Demo.fw Demo.cfg (Demo.add_view Demo.add_request) Demo.bad_post Demo.world
      = Next (Response {[ "serializer" := RSerializer s ]}) w'
      ∧ errors s = Some {[ "product_name" := ["This field is required."] ]}.
Proof.
  intros rejected. split; [|split].
  - vm_compute. reflexivity.
  - vm_compute. reflexivity.
  - eexists _, _. split; vm_compute; reflexivity.
Qed.

(** * Further properties of the views *)

Section MoreViewProperties.

Context (fw : Framework) (cfg : Settings).

(** ** get_serializer, in full *)

(** Every path of [get_serializer]. *)
Lemma get_serializer_paths {R} (self : ProductsDashboard)
    (args : list Instance) (kwargs : gmap string PyArg) (w : World) :
  get_serializer (R:=R) fw cfg self args kwargs w
  = match get_serializer_class_body fw cfg self w with
    | Next f _ => match f with end
    | Raised e w1 => Raised e w1
    | Returned cls w1 =>
        let serializer := mkSerializer cls args (updated_kwargs self kwargs) None in
        if truthy (default (ArgBool false) (kwargs !! "many")) then
          match get_list_display_body self w1 with
          | Next f _ => match f with end
          | Raised e w2 => Raised e w2
          | Returned ld w2 =>
              match metas w2 !! Meta cls with
              | Some m =>
                  Next serializer
                    (set_metas (<[Meta cls := mkMeta (Some ("pk" :: ld)) (model m)]> (metas w2)) w2)
              | None => Raised (AttributeError "Meta") w2
              end
          end
        else Next serializer w1
    end.
Proof.
  unfold get_serializer, get_serializer_body, get_serializer_class,
    get_list_display, get_serializer_context, setattr_Meta_fields, getattr_Meta,
    updated_kwargs.
  unfold_body.
  destruct (get_serializer_class_body fw cfg self w) as [[]|cls w1|]; [|done].
  cbv beta iota zeta. rewrite many_after_update.
  destruct (truthy (default (ArgBool false) (kwargs !! "many"))); [|done].
  destruct (get_list_display_body self w1) as [[]|ld w2|]; [|done].
  cbv beta iota zeta. by destruct (metas w2 !! Meta cls).
Qed.

(** [get_list_display] either answers or misses an attribute; it never
    changes the world. *)
Lemma get_list_display_body_cases (self : ProductsDashboard) (w : World) :
  (∃ ld, get_list_display_body self w = Returned ld w)
  ∨ (∃ attr, get_list_display_body self w = Raised (AttributeError attr) w).
Proof.
  unfold get_list_display_body, getattr_Meta, getattr_fields. unfold_body.
  destruct (list_display self) as [ld|]; [left; by eexists|].
  cbv beta iota zeta.
  destruct (metas w !! Meta (list_serializer_class self)) as [m|];
    [|right; by eexists].
  destruct (fields m); [left; by eexists|right; by eexists].
Qed.

(** It misses one only without a [list_display] of the view: the [Meta] of
    the list serializer class, or the [fields] of that [Meta]. *)
Lemma get_list_display_body_Raised (self : ProductsDashboard) (w : World) e w' :
  get_list_display_body self w = Raised e w' →
  w' = w ∧ list_display self = None
  ∧ ((e = AttributeError "Meta" ∧ metas w !! Meta (list_serializer_class self) = None)
     ∨ (e = AttributeError "fields"
        ∧ ∃ m, metas w !! Meta (list_serializer_class self) = Some m ∧ fields m = None)).
Proof.
  unfold get_list_display_body, getattr_Meta, getattr_fields. unfold_body.
  destruct (list_display self) as [ld|]; [done|].
  cbv beta iota zeta.
  destruct (metas w !! Meta (list_serializer_class self)) as [m|] eqn:Hm.
  - destruct (fields m) eqn:Hf; [done|].
    intros [= <- <-]. split; [done|]. split; [done|]. right. split; [done|]. by exists m.
  - intros [= <- <-]. split; [done|]. split; [done|]. by left.
Qed.

(** Which class is selected depends on the product table only. *)
Lemma get_serializer_class_body_same_table (self : ProductsDashboard) (w w' : World)
    (cls : SerializerClass) (w1 : World) :
  products w' = products w →
  get_serializer_class_body fw cfg self w = Returned cls w1 →
  ∃ w1', get_serializer_class_body fw cfg self w' = Returned cls w1'
         ∧ metas w1' = metas w' ∧ products w1' = products w'.
Proof.
  intros Hp. unfold get_serializer_class_body, get_object. unfold_body.
  repeat case_bool_decide; simpl; rewrite <- ?Hp.
  - intros [= <- _]. by eexists.
  - destruct (fetch_object fw self (products w')); [done|].
    intros [= <- _]. by eexists.
  - intros [= <- _]. by eexists.
  - intros [= <- _]. by eexists.
Qed.

(** X1. The serializer that [get_serializer] builds has the positional
    arguments of the call and no errors yet; its [label] is always
    ['dashboard'] and its [context] the context of the view, whatever the
    caller passed under these names; every other keyword is the caller's. *)
Theorem get_serializer_forces_context_and_label {R} (self : ProductsDashboard)
    (args : list Instance) (kwargs : gmap string PyArg) (w : World)
    (s : Serializer) (w' : World) :
  get_serializer (R:=R) fw cfg self args kwargs w = Next s w' →
  ser_args s = args
  ∧ errors s = None
  ∧ ser_kwargs s !! "label" = Some (ArgStr "dashboard")
  ∧ ser_kwargs s !! "context"
    = Some (ArgContext (mkContext (request self) (format_kwarg self) self))
  ∧ ∀ k, k ≠ "label" → k ≠ "context" → ser_kwargs s !! k = kwargs !! k.
Proof.
  rewrite get_serializer_paths.
  destruct (get_serializer_class_body fw cfg self w) as [[]|cls w1|]; [|done].
  cbv zeta. intros Hs.
  assert (s = mkSerializer cls args (updated_kwargs self kwargs) None) as ->.
  { destruct (truthy _); [|by injection Hs as <- _].
    destruct (get_list_display_body self w1) as [[]|ld w2|]; [|done].
    destruct (metas w2 !! Meta cls); [|done]. by injection Hs as <- _. }
  unfold updated_kwargs. simpl. split; [done|]. split; [done|].
  split; [by rewrite lookup_insert_eq|].
  split; [by rewrite lookup_insert_ne, lookup_insert_eq|].
  intros k Hl Hc. by rewrite !lookup_insert_ne.
Qed.

(** X2. Whatever the keywords, a call of [get_serializer] that succeeds
    changes at most the [Meta] of the class it selected: the [Meta] of every
    other key is as before, the [model] of the selected one too, the product
    table is untouched and nothing was saved. *)
Theorem get_serializer_touches_one_Meta {R} (self : ProductsDashboard)
    (args : list Instance) (kwargs : gmap string PyArg) (w : World)
    (s : Serializer) (w' : World) :
  get_serializer (R:=R) fw cfg self args kwargs w = Next s w' →
  no_save_since w w'
  ∧ (∀ k, k ≠ Meta (ser_class s) → metas w' !! k = metas w !! k)
  ∧ (model <$> metas w' !! Meta (ser_class s)) = (model <$> metas w !! Meta (ser_class s)).
Proof.
  rewrite get_serializer_paths.
  pose proof (get_serializer_class_body_frame fw cfg self w) as (Hm & _ & _).
  pose proof (get_serializer_class_body_no_save fw cfg self w) as Hns.
  destruct (get_serializer_class_body fw cfg self w) as [[]|cls w1|]; [|done].
  simpl in Hm, Hns. cbv zeta.
  destruct (truthy _).
  - destruct (get_list_display_body_cases self w1) as [[ld Hld]|[attr Hld]];
      rewrite Hld; [|done].
    destruct (metas w1 !! Meta cls) as [m|] eqn:Hcls; [|done].
    intros [= <- <-]. simpl. split; [|split].
    + destruct Hns as [Hp Ht]. by split.
    + intros k Hk. by rewrite lookup_insert_ne, Hm.
    + by rewrite lookup_insert_eq, <- Hm, Hcls.
  - intros [= <- <-]. simpl. split; [done|]. by rewrite Hm.
Qed.

(** X3. With a [list_display] attribute on the view the rebinding is
    idempotent: a second call with the same arguments succeeds like the first,
    builds the same serializer and leaves the class attributes as the first
    call left them. *)
Theorem get_serializer_again_with_list_display {R} (self : ProductsDashboard)
    (args : list Instance) (kwargs : gmap string PyArg) (w : World)
    (ld : list string) (s1 : Serializer) (w1 : World) :
  list_display self = Some ld →
  get_serializer (R:=R) fw cfg self args kwargs w = Next s1 w1 →
  ∃ w2, get_serializer (R:=R) fw cfg self args kwargs w1 = Next s1 w2
        ∧ metas w2 = metas w1.
Proof.
  intros Hld. rewrite !get_serializer_paths.
  pose proof (get_serializer_class_body_frame fw cfg self w) as (_ & Hp & _).
  destruct (get_serializer_class_body fw cfg self w) as [[]|cls wa|] eqn:Hcls; [|done].
  simpl in Hp. cbv zeta.
  assert (∀ w0, get_list_display_body self w0 = Returned ld w0) as Hdisplay.
  { intros w0. unfold get_list_display_body. rewrite Hld. by unfold_body. }
  destruct (truthy _).
  - rewrite Hdisplay.
    destruct (metas wa !! Meta cls) as [m|] eqn:Hm; [|done].
    intros [= <- <-].
    destruct (get_serializer_class_body_same_table self w
                (set_metas (<[Meta cls := mkMeta (Some ("pk" :: ld)) (model m)]> (metas wa)) wa)
                cls wa) as (wb & -> & Hmb & _); [by simpl|done|].
    cbv beta iota zeta. rewrite Hdisplay. simpl in Hmb.
    rewrite Hmb, lookup_insert_eq.
    eexists. split; [done|]. simpl. by rewrite insert_insert_eq.
  - intros [= <- <-].
    destruct (get_serializer_class_body_same_table self w wa cls wa)
      as (wb & -> & Hmb & _); [done|done|].
    by eexists.
Qed.

(** X4. Without a [list_display] attribute the list view takes the display
    fields from the very [Meta.fields] it rebinds: each call with a true
    [many] puts one more ['pk'] in front, so after [n] calls the fields are
    [n] times ['pk'] and then the original ones. *)
Theorem list_fields_grow_by_pk_per_call (self : ProductsDashboard)
    (args : list Instance) (kwargs : gmap string PyArg) (v : PyArg) (m : MetaClass)
    (fs : list string) (n : nat) (w : World) :
  suffix self = Some "List" →
  list_display self = None →
  kwargs !! "many" = Some v → truthy v = true →
  metas w !! Meta (list_serializer_class self) = Some m →
  fields m = Some fs →
  metas (after_calls fw cfg self args kwargs n w) !! Meta (list_serializer_class self)
  = Some (mkMeta (Some (replicate n "pk" ++ fs)%list) (model m)).
Proof.
  intros Hsfx Hld Hmany Hv Hm Hfs.
  induction n as [|n IH]; [destruct m; simpl in *; by subst|].
  simpl. rewrite get_serializer_paths.
  rewrite (get_serializer_class_body_List fw cfg self _ Hsfx). cbv zeta.
  rewrite Hmany. change (default (ArgBool false) (Some v)) with v. rewrite Hv.
  unfold get_list_display_body, getattr_Meta, getattr_fields. rewrite Hld. unfold_body.
  rewrite IH. cbv beta iota. simpl. rewrite IH. simpl. by rewrite lookup_insert_eq.
Qed.

(** X5. With a true [many], a selected class without a [Meta] makes
    [get_serializer] raise [AttributeError]: no serializer is built and the
    class attributes stay as they were.  The attribute missed is that [Meta]
    whenever the list display is there to be read. *)
Theorem get_serializer_many_needs_Meta {R} (self : ProductsDashboard)
    (args : list Instance) (kwargs : gmap string PyArg) (v : PyArg) (w : World)
    (cls : SerializerClass) (w1 : World) :
  kwargs !! "many" = Some v → truthy v = true →
  get_serializer_class_body fw cfg self w = Returned cls w1 →
  metas w !! Meta cls = None →
  (∃ attr, get_serializer (R:=R) fw cfg self args kwargs w = Raised (AttributeError attr) w1)
  ∧ (∀ ld w2, get_list_display_body self w1 = Returned ld w2 →
       get_serializer (R:=R) fw cfg self args kwargs w = Raised (AttributeError "Meta") w1)
  ∧ metas w1 = metas w.
Proof.
  intros Hmany Hv Hcls Hnone.
  pose proof (get_serializer_class_body_frame fw cfg self w) as (Hm & _ & _).
  rewrite get_serializer_paths, Hcls. rewrite Hcls in Hm. simpl in Hm. cbv zeta.
  rewrite Hmany. change (default (ArgBool false) (Some v)) with v. rewrite Hv.
  destruct (get_list_display_body_cases self w1) as [[ld Hld]|[attr Hld]]; rewrite Hld.
  - rewrite Hm, Hnone. split; [by eexists|]. split; [|done]. by intros ld' w2 _.
  - split; [by eexists|]. split; [|done]. by intros ld' w2 [=].
Qed.

(** ** The other actions *)

(** X6. On the add route [new] answers with a response that holds only a
    blank serializer (no instance, no data, no errors) of the class chosen by
    the [model] GET parameter; it asks nothing of the framework and leaves
    the world exactly as it was. *)
Theorem new_builds_blank_form {R} (self : ProductsDashboard) (req : Request)
    (w : World) :
  suffix self = Some "New" →
  let cls := default (ProductSerializer cfg)
               (GET (request self) !! "model" ≫= (detail_serializer_classes self !!.)) in
  new (R:=R) fw cfg self req w
  = Next (Response {[ "serializer" :=
                        RSerializer (mkSerializer cls [] (updated_kwargs self ∅) None) ]})
      w.
Proof.
  intros Hsfx cls. unfold new, new_body. apply call_Returned.
  erewrite bind_Next; [reflexivity|].
  rewrite get_serializer_paths, (get_serializer_class_body_New fw cfg self w Hsfx).
  cbv zeta. by rewrite lookup_empty.
Qed.

(** X7. When the object of the change route cannot be fetched, [retrieve]
    and [update] raise the error of the fetch at once: the one fetch is all
    that happened, nothing was validated and nothing saved. *)
Theorem missing_object_stops_change_actions {R} (self : ProductsDashboard)
    (req : Request) (w : World) (e : FrameworkError) :
  fetch_object fw self (products w) = inl e →
  retrieve (R:=R) fw cfg self req w
  = Raised (FrameworkExc e) (mkWorld (metas w) (products w) (trace w ++ [EvGetObject]))
  ∧ update (R:=R) fw cfg self req w
    = Raised (FrameworkExc e) (mkWorld (metas w) (products w) (trace w ++ [EvGetObject])).
Proof.
  intros Hfetch. split.
  - unfold retrieve, retrieve_body. apply call_Raised, bind_Raised.
    by apply get_object_failed.
  - unfold update, update_body, call_or_None.
    by rewrite (bind_Raised _ _ _ _ _ (get_object_failed fw self w e Hfetch)).
Qed.

(** ** Columns and links of the list *)

(** X8. Without a [list_display_links] attribute the links are the first
    display field alone, and none at all (no error) when there is no display
    field; the method fails only with [AttributeError], and only when neither
    attribute exists and the list serializer class has no [Meta] or its
    [Meta] has no [fields]. *)
Theorem get_list_display_links_first_column {R} (self : ProductsDashboard) (w : World) :
  (∀ links w',
     list_display_links self = None →
     get_list_display_links (R:=R) self w = Next links w' →
     w' = w
     ∧ ∃ ld, get_list_display (R:=R) self w = Next ld w
             ∧ links `prefix_of` ld
             ∧ length links = min 1 (length ld))
  ∧ (∀ e w',
     get_list_display_links (R:=R) self w = Raised e w' →
     w' = w
     ∧ list_display self = None ∧ list_display_links self = None
     ∧ ((e = AttributeError "Meta"
         ∧ metas w !! Meta (list_serializer_class self) = None)
        ∨ (e = AttributeError "fields"
           ∧ ∃ m, metas w !! Meta (list_serializer_class self) = Some m
                  ∧ fields m = None))).
Proof.
  unfold get_list_display_links, get_list_display_links_body, get_list_display.
  split.
  - intros links w' Hnone. rewrite Hnone. unfold_body.
    destruct (get_list_display_body_cases self w) as [[ld Hld]|[attr Hld]];
      rewrite Hld; [|done].
    intros [= <- <-]. split; [done|]. exists ld. split; [done|]. split.
    + apply prefix_take.
    + rewrite length_take. lia.
  - intros e w'. unfold_body.
    destruct (list_display_links self) as [links|]; [done|].
    destruct (get_list_display_body self w) as [[]|ld w1|e1 w1] eqn:Hld; [done|].
    intros [= <- <-].
    apply get_list_display_body_Raised in Hld as (-> & Hd & Hcause). by split.
Qed.

(** ** Failures of the breadcrumbs *)

(** X9. [get_breadcrumbs] cannot fail off the change and add routes.  On
    the change route it fails with the error of the fetch.  On the add route
    it fails with [AttributeError] when the selected class has no [Meta] or
    that [Meta] has no [model], and otherwise only with what [str.format]
    raises on a translated ['Add {}'] message. *)
Theorem get_breadcrumbs_failures {R} (self : ProductsDashboard) (w : World)
    (e : Exc) (w' : World) :
  get_breadcrumbs (R:=R) fw cfg self w = Raised e w' →
  (suffix self = Some "Instance"
   ∧ ∃ fe, fetch_object fw self (products w) = inl fe ∧ e = FrameworkExc fe)
  ∨ (suffix self = Some "New"
     ∧ let cls := default (ProductSerializer cfg)
                    (GET (request self) !! "model" ≫= (detail_serializer_classes self !!.)) in
       (e = AttributeError "Meta" ∧ metas w !! Meta cls = None)
       ∨ (e = AttributeError "model"
          ∧ ∃ m, metas w !! Meta cls = Some m ∧ model m = None)
       ∨ (∃ m options,
            metas w !! Meta cls = Some m ∧ model m = Some options
            ∧ py_format (str_format_beyond fw) (ugettext_lazy fw "Add {}")
                [verbose_name options] = inl e
            ∧ ugettext_lazy fw "Add {}" ≠ "Add {}")).
Proof.
  unfold get_breadcrumbs, get_breadcrumbs_body, DashboardRouter.get_breadcrumbs,
    DashboardRouter.get_breadcrumbs_body, get_serializer_class, getattr_Meta,
    getattr_model, get_object.
  run. repeat case_bool_decide.
  - destruct (fetch_object fw self (products w)) as [fe|] eqn:Hfetch; [|done].
    intros [= <- _]. left. split; [done|]. by exists fe.
  - pose proof (get_serializer_class_body_New fw cfg self w) as Hcls.
    rewrite Hcls by done.
    destruct (metas w !! Meta _) as [m|] eqn:Hm; simpl.
    + destruct (model m) as [options|] eqn:Hmodel; simpl.
      * destruct (py_format _ _ _) as [e'|label] eqn:Hformat; [|done].
        intros [= <- _]. right. split; [done|]. right. right.
        exists m, options. split; [done|]. split; [done|]. split; [done|].
        intros Huntranslated. by rewrite Huntranslated, py_format_Add in Hformat.
      * intros [= <- _]. right. split; [done|]. right. left. split; [done|]. by exists m.
    + intros [= <- _]. right. split; [done|]. by left.
  - done.
Qed.

(** ** The root view *)

(** X10. The root page renders the root template with the breadcrumbs of
    the router, a single entry, and every breadcrumb list of a product view
    starts with them. *)
Theorem root_breadcrumbs_prefix_of_view_breadcrumbs {R} (self : ProductsDashboard)
    (req : Request) (w0 w : World) (crumbs : list (string * string)) (w' : World) :
  get_breadcrumbs (R:=R) fw cfg self w = Next crumbs w' →
  ∃ root,
    RootView_get (R:=R) fw req w0
    = Next (mkTemplateResponse {[ "breadcrumblist" := TBreadcrumbs root ]}
              "shop/dashboard/root.html") w0
    ∧ length root = 1
    ∧ root `prefix_of` crumbs.
Proof.
  intros Hcrumbs.
  exists [(ugettext_lazy fw "Dashboard", reverse fw "dashboard:root" [])].
  split; [done|]. split; [done|].
  revert Hcrumbs.
  unfold get_breadcrumbs, get_breadcrumbs_body, DashboardRouter.get_breadcrumbs,
    DashboardRouter.get_breadcrumbs_body, get_serializer_class, getattr_Meta,
    getattr_model, get_object.
  run. repeat case_bool_decide.
  - destruct (fetch_object fw self (products w)); [done|].
    intros [= <- _]. by eexists.
  - destruct (get_serializer_class_body fw cfg self w) as [[]|c w1|]; [|done].
    destruct (metas w1 !! Meta c) as [m|]; [|done]. simpl.
    destruct (model m); [|done]. simpl.
    destruct (py_format _ _ _); [done|].
    intros [= <- _]. by eexists.
  - intros [= <- _]. by eexists.
Qed.

End MoreViewProperties.

(** * Properties of the renderer context *)

(** ** The ordered dictionary of the display fields *)

Lemma od_keys_od_set {V} (od : list (string * V)) (k : string) (v : V) :
  od_keys (od_set od k v)
  = if bool_decide (k ∈ od_keys od) then od_keys od else (od_keys od ++ [k])%list.
Proof.
  unfold od_keys. induction od as [|[k' v'] od IH]; [done|].
  cbn [od_set]. destruct (String.eqb_spec k' k) as [->|Hne].
  - rewrite !fmap_cons. cbn [fst].
    by rewrite bool_decide_eq_true_2 by apply list_elem_of_here.
  - rewrite !fmap_cons. cbn [fst]. rewrite IH. case_bool_decide as Hin.
    + by rewrite bool_decide_eq_true_2 by by apply list_elem_of_further.
    + rewrite bool_decide_eq_false_2; [done|].
      intros [?|?]%elem_of_cons; [by subst|done].
Qed.

Lemma elem_of_od_set {V} (od : list (string * V)) (k : string) (v : V) k0 v0 :
  (k0, v0) ∈ od_set od k v → (k0, v0) = (k, v) ∨ (k0, v0) ∈ od.
Proof.
  induction od as [|[k' v'] od IH]; simpl.
  - intros ?%list_elem_of_singleton. by left.
  - destruct (String.eqb_spec k' k) as [->|Hne].
    + intros [->|?]%elem_of_cons; [by left|]. right. by apply list_elem_of_further.
    + intros [->|?]%elem_of_cons; [right; apply list_elem_of_here|].
      destruct IH as [?|?]; [done|by left|]. right. by apply list_elem_of_further.
Qed.

(** The keys of the filled dictionary: the names in the order of their first
    occurrence. *)
Lemma fill_list_display_fields_keys (flds : gmap string Field) (names : list string) :
  ∀ (od od' : list (string * Field)) (seen : list string),
    (∀ k, k ∈ seen ↔ k ∈ od_keys od) →
    fill_list_display_fields flds names od = inr od' →
    od_keys od' = (od_keys od ++ first_occurrences names seen)%list.
Proof.
  induction names as [|n names IH]; intros od od' seen Hseen; simpl.
  - intros [= <-]. by rewrite app_nil_r.
  - destruct (flds !! n) as [f|]; [|done]. intros Hfill.
    case_bool_decide as Hin.
    + rewrite (IH _ _ seen) by
        (try exact Hfill; intros k; rewrite od_keys_od_set;
         rewrite bool_decide_eq_true_2 by (by apply Hseen); apply Hseen).
      rewrite od_keys_od_set. by rewrite bool_decide_eq_true_2 by by apply Hseen.
    + assert (n ∉ od_keys od) as Hnot by (by rewrite <- Hseen).
      rewrite (IH _ _ (n :: seen) ) by
        (try exact Hfill; intros k; rewrite od_keys_od_set;
         rewrite bool_decide_eq_false_2 by done;
         rewrite elem_of_cons, elem_of_app, list_elem_of_singleton, Hseen; tauto).
      rewrite od_keys_od_set, bool_decide_eq_false_2 by done.
      by rewrite <- app_assoc.
Qed.

(** The values of the filled dictionary are the fields of the serializer. *)
Lemma fill_list_display_fields_values (flds : gmap string Field) (names : list string) :
  ∀ (od od' : list (string * Field)),
    (∀ k f, (k, f) ∈ od → flds !! k = Some f) →
    fill_list_display_fields flds names od = inr od' →
    ∀ k f, (k, f) ∈ od' → flds !! k = Some f.
Proof.
  induction names as [|n names IH]; intros od od' Hod; simpl.
  - by intros [= <-].
  - destruct (flds !! n) as [f|] eqn:Hn; [|done]. apply IH.
    intros k0 f0 [[= -> ->]|?]%elem_of_od_set; [done|by apply Hod].
Qed.

Lemma first_occurrences_NoDup (names seen : list string) :
  NoDup (first_occurrences names seen)
  ∧ ∀ k, k ∈ first_occurrences names seen → k ∈ names ∧ k ∉ seen.
Proof.
  revert seen. induction names as [|n names IH]; intros seen; simpl.
  - split; [constructor|]. by intros k ?%elem_of_nil.
  - case_bool_decide as Hin.
    + destruct (IH seen) as [Hnd Hsub]. split; [done|].
      intros k Hk. destruct (Hsub k Hk). split; [by apply list_elem_of_further|done].
    + destruct (IH (n :: seen)) as [Hnd Hsub]. split.
      * constructor; [|done]. intros Hk. destruct (Hsub n Hk) as [_ Hn].
        apply Hn, list_elem_of_here.
      * intros k [->|Hk]%elem_of_cons; [split; [apply list_elem_of_here|done]|].
        destruct (Hsub k Hk) as [? Hn]. split; [by apply list_elem_of_further|].
        intros ?. by apply Hn, list_elem_of_further.
Qed.

Lemma elem_of_first_occurrences (names : list string) (k : string) :
  k ∈ names → k ∈ first_occurrences names [].
Proof.
  assert (∀ seen, k ∈ names → k ∉ seen → k ∈ first_occurrences names seen) as H.
  { induction names as [|n names IH]; intros seen; [by intros ?%elem_of_nil|].
    simpl. intros Hk Hseen. case_bool_decide as Hin.
    - apply IH; [|done]. apply elem_of_cons in Hk as [->|?]; done.
    - destruct (decide (k = n)) as [->|Hne]; [apply list_elem_of_here|].
      apply list_elem_of_further, IH.
      + apply elem_of_cons in Hk as [?|?]; done.
      + intros [?|?]%elem_of_cons; done. }
  intros Hk. apply H; [done|]. apply not_elem_of_nil.
Qed.

(** The filling fails at the first name the serializer has no field for, and
    only then. *)
Lemma fill_list_display_fields_KeyError (flds : gmap string Field) (names : list string) :
  ∀ (od : list (string * Field)) (k : string),
    fill_list_display_fields flds names od = inl (KeyError k)
    ↔ ∃ known rest, names = (known ++ k :: rest)%list
                    ∧ Forall (λ n, is_Some (flds !! n)) known
                    ∧ flds !! k = None.
Proof.
  induction names as [|n names IH]; intros od k; simpl.
  - split; [done|]. intros (known & rest & Heq & _). by destruct known.
  - destruct (flds !! n) as [f|] eqn:Hn.
    + rewrite IH. split.
      * intros (known & rest & -> & Hknown & Hk).
        exists (n :: known), rest. split; [done|]. split; [|done].
        constructor; [by rewrite Hn|done].
      * intros (known & rest & Heq & Hknown & Hk).
        destruct known as [|n' known]; simpl in Heq.
        -- injection Heq as -> _. congruence.
        -- injection Heq as -> ->. exists known, rest.
           split; [done|]. split; [by inversion Hknown|done].
    + split.
      * intros [= <-]. exists [], names. by split.
      * intros (known & rest & Heq & Hknown & Hk).
        destruct known as [|n' known]; simpl in Heq.
        -- by injection Heq as -> _.
        -- injection Heq as -> _. inversion Hknown as [|? ? [? Hsome] ?]. congruence.
Qed.

(** ** Replacing the placeholder of the detail URL *)

Lemma prefix_PK_other (c : ascii) (rest : string) :
  c ≠ ":"%char → String.prefix ":PK:" (String c rest) = false.
Proof.
  intros Hc. cbn [String.prefix].
  destruct (Ascii.ascii_dec ":" c) as [Heq|]; [|done]. by destruct Hc.
Qed.

Lemma replace_from_colon_free (new a rest : string) :
  without_char ":" a →
  replace_from ":PK:" new (a +:+ rest) 0 = a +:+ replace_from ":PK:" new rest 0.
Proof.
  induction a as [|c a IH]; [done|]. intros [Hc Ha].
  change (String c a +:+ rest) with (String c (a +:+ rest)).
  cbn [replace_from]. rewrite prefix_PK_other by done. by rewrite IH.
Qed.

Lemma replace_from_at_PK (new b : string) :
  replace_from ":PK:" new (":PK:" +:+ b) 0 = new +:+ replace_from ":PK:" new b 0.
Proof.
  change (":PK:" +:+ b) with (String ":" (String "P" (String "K" (String ":" b)))).
  cbn [replace_from]. by destruct b.
Qed.

Lemma py_replace_PK (new a b : string) :
  without_char ":" a → without_char ":" b →
  py_replace ":PK:" new (a +:+ ":PK:" +:+ b) = a +:+ new +:+ b.
Proof.
  intros Ha Hb. unfold py_replace.
  rewrite replace_from_colon_free, replace_from_at_PK by done.
  rewrite <- (append_empty_r b) at 1.
  by rewrite replace_from_colon_free, append_empty_r by done.
Qed.

(** ** The loop over the detail serializers *)

Lemma detail_models_loop_Next {R} (items : list (string * SerializerClass)) :
  ∀ (acc dm : list (string * string)) (w w' : World),
    detail_models_loop (R:=R) items acc w = Next dm w' →
    w' = w
    ∧ ∃ tail, dm = (acc ++ tail)%list
              ∧ Forall2 (λ item entry,
                           entry.1 = item.1
                           ∧ ∃ m options,
                               metas w !! Meta item.2 = Some m
                               ∧ model m = Some options
                               ∧ entry.2 = verbose_name options)
                  items tail.
Proof.
  induction items as [|[n c] items IH]; intros acc dm w w'; simpl.
  - unfold_body. intros [= <- <-]. split; [done|]. exists [].
    split; [by rewrite app_nil_r|constructor].
  - unfold getattr_Meta, getattr_model. unfold_body.
    destruct (metas w !! Meta c) as [m|] eqn:Hm; [|done].
    destruct (model m) as [options|] eqn:Hmodel; [|done].
    intros (-> & tail & -> & Htail)%IH. split; [done|].
    exists ((n, verbose_name options) :: tail). split; [by rewrite <- app_assoc|].
    constructor; [|done]. simpl. split; [done|]. by exists m, options.
Qed.

Lemma detail_models_loop_Raised {R} (items : list (string * SerializerClass)) :
  ∀ (acc : list (string * string)) (w : World) e w',
    detail_models_loop (R:=R) items acc w = Raised e w' →
    w' = w
    ∧ ∃ n c, (n, c) ∈ items
             ∧ ((e = AttributeError "Meta" ∧ metas w !! Meta c = None)
                ∨ (e = AttributeError "model"
                   ∧ ∃ m, metas w !! Meta c = Some m ∧ model m = None)).
Proof.
  induction items as [|[n c] items IH]; intros acc w e w'; simpl.
  - by unfold_body.
  - unfold getattr_Meta, getattr_model. unfold_body.
    destruct (metas w !! Meta c) as [m|] eqn:Hm.
    + destruct (model m) as [options|] eqn:Hmodel.
      * intros (-> & n' & c' & Hin & Hcause)%IH. split; [done|].
        exists n', c'. split; [by apply list_elem_of_further|done].
      * intros [= <- <-]. split; [done|].
        exists n, c. split; [apply list_elem_of_here|].
        right. split; [done|]. by exists m.
    + intros [= <- <-]. split; [done|].
      exists n, c. split; [apply list_elem_of_here|by left].
Qed.

Lemma detail_models_loop_not_Returned {R} (items : list (string * SerializerClass)) :
  ∀ (acc : list (string * string)) (w : World) r w',
    detail_models_loop (R:=R) items acc w ≠ Returned r w'.
Proof.
  induction items as [|[n c] items IH]; intros acc w r w'; simpl.
  - by unfold_body.
  - unfold getattr_Meta, getattr_model. unfold_body.
    destruct (metas w !! Meta c) as [m|]; [|done].
    destruct (model m); [apply IH|done].
Qed.

Section RendererProperties.

Context (fw : Framework) (cfg : Settings) (rf : RenderFramework).

Lemma get_breadcrumbs_List {R} (self : ProductsDashboard) (w : World) :
  suffix self = Some "List" →
  get_breadcrumbs (R:=R) fw cfg self w
  = Next [(ugettext_lazy fw "Dashboard", reverse fw "dashboard:root" []);
          (ProductModel_Meta_verbose_name_plural cfg, reverse fw "dashboard:product-list" [])]
      w.
Proof.
  intros Hsfx.
  unfold get_breadcrumbs, get_breadcrumbs_body, DashboardRouter.get_breadcrumbs,
    DashboardRouter.get_breadcrumbs_body.
  rewrite Hsfx. by run.
Qed.

Lemma has_add_permission_run {R} (self : ProductsDashboard) (w : World) :
  has_add_permission (R:=R) fw cfg self w
  = Next (has_perm fw (user (request self))
            (APP_LABEL cfg +:+ "." +:+ get_permission_codename fw "add" (ProductModel_meta cfg)))
      (log (EvHasPerm (user (request self))
              (APP_LABEL cfg +:+ "." +:+
               get_permission_codename fw "add" (ProductModel_meta cfg))) w).
Proof.
  unfold has_add_permission, has_add_permission_body, format.
  rewrite py_format_dotted. by run.
Qed.

Lemma get_list_display_links_body_cases (self : ProductsDashboard) (w : World) :
  (∃ links, get_list_display_links_body self w = Returned links w
            ∧ (list_display_links self = None →
               ∃ names, get_list_display_body self w = Returned names w
                        ∧ links = take 1 names))
  ∨ (∃ attr, get_list_display_links_body self w = Raised (AttributeError attr) w).
Proof.
  unfold get_list_display_links_body, get_list_display. unfold_body.
  destruct (list_display_links self) as [links|].
  - left. exists links. by split.
  - destruct (get_list_display_body_cases self w) as [[ld Hld]|[attr Hld]];
      rewrite Hld; [|right; by eexists].
    left. exists (take 1 ld). split; [done|]. intros _. by exists ld.
Qed.

(** Every path of [get_renderer_context] on the list route. *)
Lemma get_renderer_context_List {R} (self : ProductsDashboard) (w : World) :
  suffix self = Some "List" →
  get_renderer_context (R:=R) fw cfg rf self w
  = let u := user (request self) in
    let perm := APP_LABEL cfg +:+ "." +:+
                get_permission_codename fw "add" (ProductModel_meta cfg) in
    let w1 := log (EvHasPerm u perm) w in
    let crumbs := [(ugettext_lazy fw "Dashboard", reverse fw "dashboard:root" []);
                   (ProductModel_Meta_verbose_name_plural cfg,
                    reverse fw "dashboard:product-list" [])] in
    match get_list_display_body self w1 with
    | Next f _ => match f with end
    | Raised e w2 => Raised e w2
    | Returned names w2 =>
        match fill_list_display_fields
                (serializer_fields rf (list_serializer_class self) (metas w2)) names [] with
        | inl err => Next (inl err) w2
        | inr od =>
            match get_list_display_links_body self w2 with
            | Next f _ => match f with end
            | Raised e w3 => Raised e w3
            | Returned links w3 =>
                match detail_models_loop (R:=LookupError + gmap string RendererVal)
                        (map_to_list (detail_serializer_classes self)) [] w3 with
                | Next dm w4 =>
                    Next (inr (<[ "template_context" :=
                                    RTemplateContext
                                      (<[ "detail_ng_href" :=
                                            TStr (py_replace ":PK:" "{{ entry.pk }}"
                                                    (reverse fw "dashboard:product-change"
                                                       [":PK:"])) ]>
                                         (<[ "detail_models" := TModels dm ]>
                                            (<[ "list_display_links" := TNames links ]>
                                               (<[ "list_display_fields" := TFields od ]>
                                                  (<[ "has_add_permission" :=
                                                        TBool (has_perm fw u perm) ]>
                                                     {[ "breadcrumblist" :=
                                                          TBreadcrumbs crumbs ]}))))) ]>
                                 (super_get_renderer_context rf self))) w4
                | Returned r w4 => Next r w4
                | Raised e w4 => Raised e w4
                end
            end
        end
    end.
Proof.
  intros Hsfx. unfold get_renderer_context, get_renderer_context_body.
  unfold call at 1.
  rewrite (bind_Next _ _ _ _ _ (get_breadcrumbs_List self w Hsfx)).
  rewrite (bind_Next _ _ _ _ _ (has_add_permission_run self w)).
  rewrite Hsfx, bool_decide_eq_true_2 by done.
  unfold get_list_display, get_list_display_links. unfold_body.
  destruct (get_list_display_body self _) as [[]|names w2|]; [|done].
  destruct (fill_list_display_fields _ names []) as [err|od]; [done|].
  destruct (get_list_display_links_body self w2) as [[]|links w3|]; [|done].
  by destruct (detail_models_loop _ _ w3).
Qed.

(** Every path of [get_renderer_context] off the list route. *)
Lemma get_renderer_context_not_List {R} (self : ProductsDashboard) (w : World) :
  suffix self ≠ Some "List" →
  get_renderer_context (R:=R) fw cfg rf self w
  = let u := user (request self) in
    let perm := APP_LABEL cfg +:+ "." +:+
                get_permission_codename fw "add" (ProductModel_meta cfg) in
    match get_breadcrumbs_body fw cfg self w with
    | Next f _ => match f with end
    | Raised e w1 => Raised e w1
    | Returned crumbs w1 =>
        Next (inr (<[ "template_context" :=
                        RTemplateContext
                          (<[ "has_add_permission" := TBool (has_perm fw u perm) ]>
                             {[ "breadcrumblist" := TBreadcrumbs crumbs ]}) ]>
                     (super_get_renderer_context rf self)))
          (log (EvHasPerm u perm) w1)
    end.
Proof.
  intros Hsfx. unfold get_renderer_context, get_renderer_context_body.
  unfold call at 1. unfold get_breadcrumbs.
  unfold mbind at 1. unfold Body_bind at 1, bind at 1. unfold call at 1.
  destruct (get_breadcrumbs_body fw cfg self w) as [[]|crumbs w1|]; [|done].
  cbv beta iota.
  rewrite (bind_Next _ _ _ _ _ (has_add_permission_run self w1)).
  rewrite bool_decide_eq_false_2 by done. by unfold_body.
Qed.

(** The breadcrumbs only look an instance up. *)
Lemma get_breadcrumbs_body_frame (self : ProductsDashboard) (w : World) :
  let w' := world_of (get_breadcrumbs_body fw cfg self w) in
  metas w' = metas w ∧ no_save_since w w'.
Proof.
  unfold get_breadcrumbs_body, DashboardRouter.get_breadcrumbs,
    DashboardRouter.get_breadcrumbs_body, get_serializer_class, getattr_Meta,
    getattr_model, get_object.
  pose proof (get_serializer_class_body_frame fw cfg self w) as (Hm & _ & _).
  pose proof (get_serializer_class_body_no_save fw cfg self w) as Hns.
  run. repeat case_bool_decide.
  - destruct (fetch_object fw self (products w)); simpl;
      (split; [done|by apply no_save_since_log]).
  - destruct (get_serializer_class_body fw cfg self w) as [[]|c w1|]; simpl in *; [|done].
    destruct (metas w1 !! Meta c) as [m|]; simpl; [|done].
    destruct (model m); simpl; [|done].
    by destruct (py_format _ _ _).
  - simpl. split; [done|apply no_save_since_refl].
Qed.

Lemma get_list_display_body_log (self : ProductsDashboard) (ev : Event) (w : World)
    (names : list string) :
  get_list_display_body self (log ev w) = Returned names (log ev w)
  ↔ get_list_display_body self w = Returned names w.
Proof.
  unfold get_list_display_body, getattr_Meta, getattr_fields. unfold_body.
  destruct (list_display self) as [ld|].
  - split; by intros [= ->].
  - cbv beta iota zeta. simpl.
    destruct (metas w !! Meta (list_serializer_class self)) as [m|]; [|done].
    destruct (fields m); [|done].
    split; by intros [= ->].
Qed.

Lemma get_list_display_body_same_metas (self : ProductsDashboard) (w w' : World)
    (names : list string) :
  metas w' = metas w →
  get_list_display_body self w = Returned names w →
  get_list_display_body self w' = Returned names w'.
Proof.
  intros Hm. unfold get_list_display_body, getattr_Meta, getattr_fields. unfold_body.
  destruct (list_display self) as [ld|]; [by intros [= ->]|].
  cbv beta iota zeta. rewrite Hm.
  destruct (metas w !! Meta (list_serializer_class self)) as [m|]; [|done].
  destruct (fields m); [|done].
  by intros [= ->].
Qed.

(** The answers of [get_renderer_context] on the list route, taken apart. *)
Lemma get_renderer_context_List_inv {R} (self : ProductsDashboard) (w : World)
    (ctx : gmap string RendererVal) (w' : World) :
  suffix self = Some "List" →
  get_renderer_context (R:=R) fw cfg rf self w = Next (inr ctx) w' →
  ∃ names od links dm,
    get_list_display_body self w = Returned names w
    ∧ fill_list_display_fields
        (serializer_fields rf (list_serializer_class self) (metas w)) names [] = inr od
    ∧ get_list_display_links_body self w' = Returned links w'
    ∧ detail_models_loop (R:=LookupError + gmap string RendererVal)
        (map_to_list (detail_serializer_classes self)) [] w' = Next dm w'
    ∧ metas w' = metas w
    ∧ ∃ tc0,
        dom tc0 = {[ "breadcrumblist"; "has_add_permission" ]}
        ∧ ctx = <[ "template_context" :=
                     RTemplateContext
                       (<[ "detail_ng_href" :=
                             TStr (py_replace ":PK:" "{{ entry.pk }}"
                                     (reverse fw "dashboard:product-change" [":PK:"])) ]>
                          (<[ "detail_models" := TModels dm ]>
                             (<[ "list_display_links" := TNames links ]>
                                (<[ "list_display_fields" := TFields od ]> tc0)))) ]>
                  (super_get_renderer_context rf self).
Proof.
  intros Hsfx. rewrite get_renderer_context_List by done. cbv zeta.
  set (w1 := log _ w).
  destruct (get_list_display_body_cases self w1) as [[names Hnames]|[attr Hnames]];
    rewrite Hnames; [|done].
  destruct (fill_list_display_fields _ names []) as [err|od] eqn:Hfill; [done|].
  destruct (get_list_display_links_body_cases self w1) as [(links & Hlinks & _)|[attr' Hlinks]];
    rewrite Hlinks; [|done].
  destruct (detail_models_loop _ _ w1) as [dm w4|r w4|e w4] eqn:Hloop.
  - apply detail_models_loop_Next in Hloop as Hw4. destruct Hw4 as [-> _].
    intros [= <- <-]. exists names, od, links, dm.
    split; [subst w1; by apply get_list_display_body_log in Hnames|].
    split; [done|]. split; [done|]. split; [done|]. split; [done|].
    eexists. split; [|done].
    rewrite dom_insert_L, dom_singleton_L. set_solver.
  - by apply detail_models_loop_not_Returned in Hloop.
  - done.
Qed.

(** ** What the list template gets *)

(** X11. On the list route the [list_display_fields] of the template
    context have one entry per display field, in the order of the first
    occurrence of each name: a name listed twice shows one column.  Each
    entry holds the field the list serializer has under that name. *)
Theorem list_display_fields_follow_list_display {R} (self : ProductsDashboard)
    (w : World) (ctx : gmap string RendererVal) (w' : World) :
  suffix self = Some "List" →
  get_renderer_context (R:=R) fw cfg rf self w = Next (inr ctx) w' →
  ∃ tc names od,
    ctx !! "template_context" = Some (RTemplateContext tc)
    ∧ tc !! "list_display_fields" = Some (TFields od)
    ∧ get_list_display (R:=R) self w = Next names w
    ∧ od_keys od = first_occurrences names []
    ∧ NoDup (od_keys od)
    ∧ (∀ k, k ∈ names → k ∈ od_keys od)
    ∧ (∀ k f, (k, f) ∈ od →
         serializer_fields rf (list_serializer_class self) (metas w) !! k = Some f).
Proof.
  intros Hsfx Hctx.
  destruct (get_renderer_context_List_inv self w ctx w' Hsfx Hctx)
    as (names & od & links & dm & Hnames & Hfill & _ & _ & _ & tc0 & _ & ->).
  eexists _, names, od. split; [by rewrite lookup_insert_eq|].
  split; [do 3 (rewrite lookup_insert_ne by done); by rewrite lookup_insert_eq|].
  split; [by apply call_Returned|].
  assert (od_keys od = first_occurrences names []) as Hkeys.
  { by apply (fill_list_display_fields_keys _ names [] od [] (λ k, reflexivity _)) in Hfill. }
  split; [done|]. rewrite Hkeys.
  split; [apply first_occurrences_NoDup|].
  split; [apply elem_of_first_occurrences|].
  eapply fill_list_display_fields_values; [|exact Hfill].
  by intros k f ?%elem_of_nil.
Qed.

(** X12. A display field the list serializer has no field for makes
    [get_renderer_context] fail with the [KeyError] of the first such name,
    after the permission check and with nothing changed or saved. *)
Theorem unknown_display_field_is_KeyError {R} (self : ProductsDashboard) (w : World)
    (names known : list string) (k : string) (rest : list string) :
  let flds := serializer_fields rf (list_serializer_class self) (metas w) in
  suffix self = Some "List" →
  get_list_display (R:=R) self w = Next names w →
  names = (known ++ k :: rest)%list →
  Forall (λ n, is_Some (flds !! n)) known →
  flds !! k = None →
  get_renderer_context (R:=R) fw cfg rf self w
  = Next (inl (KeyError k))
      (mkWorld (metas w) (products w)
         (trace w ++ [EvHasPerm (user (request self))
                        (APP_LABEL cfg +:+ "." +:+
                         get_permission_codename fw "add" (ProductModel_meta cfg))])).
Proof.
  intros flds Hsfx Hnames -> Hknown Hk.
  rewrite get_renderer_context_List by done. cbv zeta.
  unfold get_list_display, call in Hnames.
  destruct (get_list_display_body self w) as [[]|names' w0|] eqn:Hbody; [|done].
  injection Hnames as -> ->.
  apply (get_list_display_body_log self
           (EvHasPerm (user (request self))
              (APP_LABEL cfg +:+ "." +:+
               get_permission_codename fw "add" (ProductModel_meta cfg)))) in Hbody.
  rewrite Hbody.
  assert (fill_list_display_fields flds (known ++ k :: rest) [] = inl (KeyError k))
    as Hfill.
  { apply fill_list_display_fields_KeyError. by exists known, rest. }
  subst flds. simpl. by rewrite Hfill.
Qed.

(** X13. On the list route [detail_models] has one entry per detail
    serializer class, no more: a name is listed with a verbose name exactly
    when [detail_serializer_classes] has a class under that name whose model
    has this verbose name. *)
Theorem detail_models_cover_detail_serializers {R} (self : ProductsDashboard)
    (w : World) (ctx : gmap string RendererVal) (w' : World) :
  suffix self = Some "List" →
  get_renderer_context (R:=R) fw cfg rf self w = Next (inr ctx) w' →
  ∃ tc dm,
    ctx !! "template_context" = Some (RTemplateContext tc)
    ∧ tc !! "detail_models" = Some (TModels dm)
    ∧ length dm = size (detail_serializer_classes self)
    ∧ ∀ name vn,
        (name, vn) ∈ dm
        ↔ ∃ cls m options,
            detail_serializer_classes self !! name = Some cls
            ∧ metas w !! Meta cls = Some m
            ∧ model m = Some options
            ∧ vn = verbose_name options.
Proof.
  intros Hsfx Hctx.
  destruct (get_renderer_context_List_inv self w ctx w' Hsfx Hctx)
    as (names & od & links & dm & _ & _ & _ & Hloop & Hmetas & tc0 & _ & ->).
  apply detail_models_loop_Next in Hloop as (_ & tail & -> & Hall).
  rewrite Hmetas in Hall. simpl.
  eexists _, tail. split; [by rewrite lookup_insert_eq|].
  split; [rewrite lookup_insert_ne by done; by rewrite lookup_insert_eq|].
  split; [by rewrite <- (Forall2_length _ _ _ Hall), length_map_to_list|].
  intros name vn. split.
  - intros (i & Hi)%list_elem_of_lookup.
    destruct (Forall2_lookup_r _ _ _ _ _ Hall Hi)
      as ([n c] & Hitem & Hn & m & options & Hm & Hmodel & Hvn).
    simpl in *. subst n. exists c, m, options. split; [|done].
    apply elem_of_map_to_list, list_elem_of_lookup. by exists i.
  - intros (cls & m & options & Hcls & Hm & Hmodel & ->).
    apply elem_of_map_to_list, list_elem_of_lookup in Hcls as (i & Hi).
    destruct (Forall2_lookup_l _ _ _ _ _ Hall Hi)
      as ([n vn] & Hentry & Hn & m' & options' & Hm' & Hmodel' & Hvn).
    simpl in *. subst n. assert (m' = m) as -> by congruence.
    assert (options' = options) as -> by congruence. subst vn.
    apply list_elem_of_lookup. by exists i.
Qed.

(** X14. On the list route [detail_ng_href] is the URL of the change view
    of [:PK:] with that placeholder replaced by the Angular expression, when
    the URL has no other colon. *)
Theorem detail_ng_href_replaces_placeholder {R} (self : ProductsDashboard)
    (w : World) (ctx : gmap string RendererVal) (w' : World) (before after : string) :
  suffix self = Some "List" →
  get_renderer_context (R:=R) fw cfg rf self w = Next (inr ctx) w' →
  reverse fw "dashboard:product-change" [":PK:"] = before +:+ ":PK:" +:+ after →
  without_char ":" before → without_char ":" after →
  ∃ tc, ctx !! "template_context" = Some (RTemplateContext tc)
        ∧ tc !! "detail_ng_href" = Some (TStr (before +:+ "{{ entry.pk }}" +:+ after)).
Proof.
  intros Hsfx Hctx Hurl Hbefore Hafter.
  destruct (get_renderer_context_List_inv self w ctx w' Hsfx Hctx)
    as (names & od & links & dm & _ & _ & _ & _ & _ & tc0 & _ & ->).
  eexists. split; [by rewrite lookup_insert_eq|].
  by rewrite lookup_insert_eq, Hurl, py_replace_PK.
Qed.

(** X15. Without a [list_display_links] attribute every link of the list
    template is one of its columns, and there is a link as soon as there is a
    column. *)
Theorem list_display_links_are_columns {R} (self : ProductsDashboard)
    (w : World) (ctx : gmap string RendererVal) (w' : World) :
  suffix self = Some "List" →
  list_display_links self = None →
  get_renderer_context (R:=R) fw cfg rf self w = Next (inr ctx) w' →
  ∃ tc links od,
    ctx !! "template_context" = Some (RTemplateContext tc)
    ∧ tc !! "list_display_links" = Some (TNames links)
    ∧ tc !! "list_display_fields" = Some (TFields od)
    ∧ (∀ l, l ∈ links → l ∈ od_keys od)
    ∧ (od ≠ [] → links ≠ []).
Proof.
  intros Hsfx Hnone Hctx.
  destruct (get_renderer_context_List_inv self w ctx w' Hsfx Hctx)
    as (names & od & links & dm & Hnames & Hfill & Hlinks & _ & Hmetas & tc0 & _ & ->).
  destruct (get_list_display_links_body_cases self w')
    as [(links' & Hlinks' & Htake)|[attr' Hlinks']]; [|congruence].
  destruct (Htake Hnone) as (names' & Hnames' & Hfirst).
  assert (links' = links) as -> by congruence.
  assert (names' = names) as ->.
  { apply (get_list_display_body_same_metas self w w') in Hnames; [|done].
    congruence. }
  assert (od_keys od = first_occurrences names []) as Hkeys.
  { by apply (fill_list_display_fields_keys _ names [] od [] (λ k, reflexivity _)) in Hfill. }
  eexists _, links, od. split; [by rewrite lookup_insert_eq|].
  split; [do 2 (rewrite lookup_insert_ne by done); by rewrite lookup_insert_eq|].
  split; [do 3 (rewrite lookup_insert_ne by done); by rewrite lookup_insert_eq|].
  split.
  - intros l Hl. rewrite Hkeys. apply elem_of_first_occurrences.
    rewrite Hfirst in Hl. apply elem_of_take in Hl as (i & Hi & _).
    apply list_elem_of_lookup. by exists i.
  - intros Hod. rewrite Hfirst. destruct names as [|n names]; [|done].
    simpl in Hfill. by injection Hfill as <-.
Qed.

(** ** The renderer context as a whole *)

(** X16. [get_renderer_context] hands on every entry of the context of the
    generic view but [template_context], which it sets.  The template context
    always has the breadcrumbs of the view and the answer of the permission
    check; off the list route it has nothing else, on the list route exactly
    the four list entries besides. *)
Theorem renderer_context_extends_generic_context {R} (self : ProductsDashboard)
    (w : World) (ctx : gmap string RendererVal) (w' : World) :
  get_renderer_context (R:=R) fw cfg rf self w = Next (inr ctx) w' →
  (∀ k, k ≠ "template_context" → ctx !! k = super_get_renderer_context rf self !! k)
  ∧ ∃ tc crumbs w1,
      ctx !! "template_context" = Some (RTemplateContext tc)
      ∧ get_breadcrumbs (R:=R) fw cfg self w = Next crumbs w1
      ∧ tc !! "breadcrumblist" = Some (TBreadcrumbs crumbs)
      ∧ tc !! "has_add_permission"
        = Some (TBool (has_perm fw (user (request self))
                         (APP_LABEL cfg +:+ "." +:+
                          get_permission_codename fw "add" (ProductModel_meta cfg))))
      ∧ dom tc
        = if bool_decide (suffix self = Some "List")
          then {[ "breadcrumblist"; "has_add_permission"; "list_display_fields";
                  "list_display_links"; "detail_models"; "detail_ng_href" ]}
          else {[ "breadcrumblist"; "has_add_permission" ]}.
Proof.
  case_bool_decide as Hsfx.
  - rewrite get_renderer_context_List by done. cbv zeta.
    set (w1 := log _ w).
    destruct (get_list_display_body_cases self w1) as [[names Hnames]|[attr Hnames]];
      rewrite Hnames; [|done].
    destruct (fill_list_display_fields _ names []) as [err|od] eqn:Hfill; [done|].
    destruct (get_list_display_links_body_cases self w1) as [(links & Hlinks & _)|[attr' Hlinks]];
      rewrite Hlinks; [|done].
    destruct (detail_models_loop _ _ w1) as [dm w4|r w4|e w4] eqn:Hloop; [| |done].
    + intros [= <- <-]. split; [intros k Hk; by rewrite lookup_insert_ne|].
      eexists _, _, w. split; [by rewrite lookup_insert_eq|].
      split; [by apply get_breadcrumbs_List|].
      split; [do 5 (rewrite lookup_insert_ne by done); by rewrite lookup_singleton_eq|].
      split; [do 4 (rewrite lookup_insert_ne by done); by rewrite lookup_insert_eq|].
      rewrite !dom_insert_L, dom_singleton_L. set_solver.
    + by apply detail_models_loop_not_Returned in Hloop.
  - rewrite get_renderer_context_not_List by done. cbv zeta.
    destruct (get_breadcrumbs_body fw cfg self w) as [[]|crumbs w1|] eqn:Hcrumbs; [|done].
    intros [= <- <-]. split; [intros k Hk; by rewrite lookup_insert_ne|].
    eexists _, crumbs, w1. split; [by rewrite lookup_insert_eq|].
    split; [by apply call_Returned|].
    split; [rewrite lookup_insert_ne by done; by rewrite lookup_singleton_eq|].
    split; [by rewrite lookup_insert_eq|].
    rewrite dom_insert_L, dom_singleton_L. set_solver.
Qed.

(** X17. Building the renderer context reads only: whatever way it ends,
    the class attributes and the product table are as before and nothing was
    saved. *)
Theorem get_renderer_context_reads_only {R} (self : ProductsDashboard) (w : World) :
  let w' := world_of (get_renderer_context (R:=R) fw cfg rf self w) in
  metas w' = metas w ∧ no_save_since w w'.
Proof.
  destruct (decide (suffix self = Some "List")) as [Hsfx|Hsfx].
  - rewrite get_renderer_context_List by done. cbv zeta.
    set (ev := EvHasPerm _ _).
    assert (no_save_since w (log ev w)) as Hlog by (by apply no_save_since_log).
    destruct (get_list_display_body_cases self (log ev w))
      as [[names Hnames]|[attr Hnames]]; rewrite Hnames; [|done].
    destruct (fill_list_display_fields _ names []) as [err|od]; [done|].
    destruct (get_list_display_links_body_cases self (log ev w))
      as [(links & Hlinks & _)|[attr' Hlinks]]; rewrite Hlinks; [|done].
    destruct (detail_models_loop _ _ (log ev w)) as [dm w4|r w4|e w4] eqn:Hloop.
    + by apply detail_models_loop_Next in Hloop as [-> _].
    + by apply detail_models_loop_not_Returned in Hloop.
    + by apply detail_models_loop_Raised in Hloop as (-> & _).
  - rewrite get_renderer_context_not_List by done. cbv zeta.
    pose proof (get_breadcrumbs_body_frame self w) as [Hm Hns].
    destruct (get_breadcrumbs_body fw cfg self w) as [[]|crumbs w1|e w1]; [|done].
    simpl in *. split; [done|].
    eapply no_save_since_trans; [exact Hns|]. by apply no_save_since_log.
Qed.

End RendererProperties.

(** * The further properties at work in the small shop *)

Lemma get_serializer_forces_context_and_label_witness :
  ∃ s w',
    get_serializer (R:=unit) Demo.fw Demo.cfg Demo.list_view []
      {[ "label" := ArgStr "mine" ]} Demo.world = Next s w'
    ∧ ser_args s = []
    ∧ errors s = None
    ∧ ser_kwargs s !! "label" = Some (ArgStr "dashboard")
    ∧ ser_kwargs s !! "context"
      = Some (ArgContext (mkContext (request Demo.list_view)
                            (format_kwarg Demo.list_view) Demo.list_view))
    ∧ ∀ k, k ≠ "label" → k ≠ "context" →
           ser_kwargs s !! k = ({[ "label" := ArgStr "mine" ]} : gmap string PyArg) !! k.
Proof.
  eexists _, _. split; [vm_compute; reflexivity|].
  apply (get_serializer_forces_context_and_label (R:=unit) Demo.fw Demo.cfg Demo.list_view []
           {[ "label" := ArgStr "mine" ]} Demo.world _ Demo.world).
  vm_compute. reflexivity.
Defined.

Lemma get_serializer_touches_one_Meta_witness :
  ∃ s w',
    get_serializer (R:=unit) Demo.fw Demo.cfg Demo.list_view [] Demo.many_kwargs Demo.world
    = Next s w'
    ∧ no_save_since Demo.world w'
    ∧ (∀ k, k ≠ Meta (ser_class s) → metas w' !! k = metas Demo.world !! k)
    ∧ (model <$> metas w' !! Meta (ser_class s))
      = (model <$> metas Demo.world !! Meta (ser_class s)).
Proof.
  eexists _, _. split; [vm_compute; reflexivity|].
  apply (get_serializer_touches_one_Meta (R:=unit) Demo.fw Demo.cfg Demo.list_view []
           Demo.many_kwargs Demo.world).
  vm_compute. reflexivity.
Defined.

Lemma get_serializer_again_with_list_display_witness :
  ∃ s1 w1,
    get_serializer (R:=unit) Demo.fw Demo.cfg DemoList.columns_view [] Demo.many_kwargs
      Demo.world = Next s1 w1
    ∧ ∃ w2, get_serializer (R:=unit) Demo.fw Demo.cfg DemoList.columns_view []
              Demo.many_kwargs w1 = Next s1 w2
            ∧ metas w2 = metas w1.
Proof.
  eexists _, _. split; [vm_compute; reflexivity|].
  apply (get_serializer_again_with_list_display (R:=unit) Demo.fw Demo.cfg DemoList.columns_view []
           Demo.many_kwargs Demo.world ["product_name"; "price"; "product_name"]).
  - reflexivity.
  - vm_compute. reflexivity.
Defined.

Lemma list_fields_grow_by_pk_per_call_witness :
  metas (after_calls Demo.fw Demo.cfg Demo.list_view [] Demo.many_kwargs 3 Demo.world)
    !! Meta (list_serializer_class Demo.list_view)
  = Some (mkMeta (Some (replicate 3 "pk" ++ ["product_name"; "price"])%list)
            (model Demo.summary_Meta)).
Proof.
  apply (list_fields_grow_by_pk_per_call Demo.fw Demo.cfg Demo.list_view []
           Demo.many_kwargs (ArgBool true) Demo.summary_Meta ["product_name"; "price"]
           3 Demo.world).
  - reflexivity.
  - reflexivity.
  - vm_compute. reflexivity.
  - reflexivity.
  - vm_compute. reflexivity.
  - reflexivity.
Defined.

Lemma get_serializer_many_needs_Meta_witness :
  (∃ attr,
     get_serializer (R:=unit) Demo.fw Demo.cfg DemoList.columns_view [] Demo.many_kwargs
       DemoList.no_Meta_world
     = Raised (AttributeError attr) DemoList.no_Meta_world)
  ∧ (∀ ld w2,
       get_list_display_body DemoList.columns_view DemoList.no_Meta_world = Returned ld w2 →
       get_serializer (R:=unit) Demo.fw Demo.cfg DemoList.columns_view [] Demo.many_kwargs
         DemoList.no_Meta_world
       = Raised (AttributeError "Meta") DemoList.no_Meta_world)
  ∧ metas DemoList.no_Meta_world = metas DemoList.no_Meta_world.
Proof.
  apply (get_serializer_many_needs_Meta (R:=unit) Demo.fw Demo.cfg DemoList.columns_view []
           Demo.many_kwargs (ArgBool true) DemoList.no_Meta_world
           Demo.ProductSummarySerializer DemoList.no_Meta_world).
  - vm_compute. reflexivity.
  - reflexivity.
  - vm_compute. reflexivity.
  - vm_compute. reflexivity.
Defined.

Lemma new_builds_blank_form_witness :
  new (R:=unit) Demo.fw Demo.cfg (Demo.add_view Demo.add_request) Demo.add_request Demo.world
  = Next (Response
            {[ "serializer" :=
                 RSerializer
                   (mkSerializer
                      (default (ProductSerializer Demo.cfg)
                         (GET (request (Demo.add_view Demo.add_request)) !! "model"
                            ≫= (detail_serializer_classes (Demo.add_view Demo.add_request) !!.)))
                      [] (updated_kwargs (Demo.add_view Demo.add_request) ∅) None) ]})
      Demo.world.
Proof.
  apply (new_builds_blank_form (R:=unit) Demo.fw Demo.cfg (Demo.add_view Demo.add_request)
           Demo.add_request Demo.world).
  reflexivity.
Defined.

Lemma missing_object_stops_change_actions_witness :
  retrieve (R:=unit) Demo.fw Demo.cfg (DemoList.missing_view Demo.good_post)
    Demo.good_post Demo.world
  = Raised (FrameworkExc Http404)
      (mkWorld (metas Demo.world) (products Demo.world) (trace Demo.world ++ [EvGetObject]))
  ∧ update (R:=unit) Demo.fw Demo.cfg (DemoList.missing_view Demo.good_post)
      Demo.good_post Demo.world
    = Raised (FrameworkExc Http404)
        (mkWorld (metas Demo.world) (products Demo.world) (trace Demo.world ++ [EvGetObject])).
Proof.
  apply (missing_object_stops_change_actions (R:=unit) Demo.fw Demo.cfg
           (DemoList.missing_view Demo.good_post) Demo.good_post Demo.world Http404).
  vm_compute. reflexivity.
Defined.

Lemma get_list_display_links_first_column_witness :
  (∃ links,
     get_list_display_links (R:=unit) Demo.list_view Demo.world = Next links Demo.world
     ∧ ∃ ld, get_list_display (R:=unit) Demo.list_view Demo.world = Next ld Demo.world
             ∧ links `prefix_of` ld
             ∧ length links = min 1 (length ld))
  ∧ (get_list_display_links (R:=unit) Demo.list_view DemoList.partial_Meta_world
     = Raised (AttributeError "fields") DemoList.partial_Meta_world
     ∧ list_display Demo.list_view = None ∧ list_display_links Demo.list_view = None
     ∧ ((AttributeError "fields" = AttributeError "Meta"
         ∧ metas DemoList.partial_Meta_world
             !! Meta (list_serializer_class Demo.list_view) = None)
        ∨ (AttributeError "fields" = AttributeError "fields"
           ∧ ∃ m, metas DemoList.partial_Meta_world
                    !! Meta (list_serializer_class Demo.list_view) = Some m
                  ∧ fields m = None))).
Proof.
  split.
  - eexists. split; [vm_compute; reflexivity|].
    apply (proj1 (get_list_display_links_first_column (R:=unit) Demo.list_view Demo.world)
             ["product_name"] Demo.world).
    + reflexivity.
    + vm_compute. reflexivity.
  - split; [vm_compute; reflexivity|].
    apply (proj2 (get_list_display_links_first_column (R:=unit) Demo.list_view
                    DemoList.partial_Meta_world)
             (AttributeError "fields") DemoList.partial_Meta_world).
    vm_compute. reflexivity.
Defined.

Lemma get_breadcrumbs_failures_witness :
  get_breadcrumbs (R:=unit) Demo.fw Demo.cfg (Demo.add_view Demo.add_request)
    DemoList.partial_Meta_world
  = Raised (AttributeError "model") DemoList.partial_Meta_world
  ∧ ((suffix (Demo.add_view Demo.add_request) = Some "Instance"
      ∧ ∃ fe, fetch_object Demo.fw (Demo.add_view Demo.add_request)
                (products DemoList.partial_Meta_world) = inl fe
              ∧ AttributeError "model" = FrameworkExc fe)
     ∨ (suffix (Demo.add_view Demo.add_request) = Some "New"
        ∧ let cls := default (ProductSerializer Demo.cfg)
                       (GET (request (Demo.add_view Demo.add_request)) !! "model"
                          ≫= (detail_serializer_classes (Demo.add_view Demo.add_request) !!.)) in
          (AttributeError "model" = AttributeError "Meta"
           ∧ metas DemoList.partial_Meta_world !! Meta cls = None)
          ∨ (AttributeError "model" = AttributeError "model"
             ∧ ∃ m, metas DemoList.partial_Meta_world !! Meta cls = Some m ∧ model m = None)
          ∨ (∃ m options,
               metas DemoList.partial_Meta_world !! Meta cls = Some m
               ∧ model m = Some options
               ∧ py_format (str_format_beyond Demo.fw) (ugettext_lazy Demo.fw "Add {}")
                   [verbose_name options] = inl (AttributeError "model")
               ∧ ugettext_lazy Demo.fw "Add {}" ≠ "Add {}"))).
Proof.
  split; [vm_compute; reflexivity|].
  apply (get_breadcrumbs_failures (R:=unit) Demo.fw Demo.cfg
           (Demo.add_view Demo.add_request) DemoList.partial_Meta_world
           (AttributeError "model") DemoList.partial_Meta_world).
  vm_compute. reflexivity.
Defined.

Lemma root_breadcrumbs_prefix_of_view_breadcrumbs_witness :
  ∃ root,
    RootView_get (R:=unit) Demo.fw Demo.get_request Demo.world
    = Next (mkTemplateResponse {[ "breadcrumblist" := TBreadcrumbs root ]}
              "shop/dashboard/root.html") Demo.world
    ∧ length root = 1
    ∧ root `prefix_of` [Demo.demo_root; Demo.demo_products;
                        ("SD 4GB", "/dashboard/products/")].
Proof.
  apply (root_breadcrumbs_prefix_of_view_breadcrumbs (R:=unit) Demo.fw Demo.cfg
           (Demo.change_view Demo.get_request) Demo.get_request Demo.world Demo.world
           _ Demo.fetched).
  vm_compute. reflexivity.
Defined.

Lemma list_display_fields_follow_list_display_witness :
  ∃ ctx w',
    get_renderer_context (R:=unit) DemoList.fw Demo.cfg DemoList.rf DemoList.columns_view
      Demo.world = Next (inr ctx) w'
    ∧ ∃ tc names od,
        ctx !! "template_context" = Some (RTemplateContext tc)
        ∧ tc !! "list_display_fields" = Some (TFields od)
        ∧ get_list_display (R:=unit) DemoList.columns_view Demo.world = Next names Demo.world
        ∧ od_keys od = first_occurrences names []
        ∧ NoDup (od_keys od)
        ∧ (∀ k, k ∈ names → k ∈ od_keys od)
        ∧ (∀ k f, (k, f) ∈ od →
             serializer_fields DemoList.rf (list_serializer_class DemoList.columns_view)
               (metas Demo.world) !! k = Some f).
Proof.
  eexists _, _. split; [vm_compute; reflexivity|].
  eapply (list_display_fields_follow_list_display (R:=unit) DemoList.fw Demo.cfg DemoList.rf
           DemoList.columns_view Demo.world).
  - reflexivity.
  - vm_compute. reflexivity.
Defined.

Example columns_of_the_list :
  ∃ ctx w' tc,
    get_renderer_context (R:=unit) DemoList.fw Demo.cfg DemoList.rf DemoList.columns_view
      Demo.world = Next (inr ctx) w'
    ∧ ctx !! "template_context" = Some (RTemplateContext tc)
    ∧ tc !! "list_display_fields"
      = Some (TFields [("product_name", DemoList.name_field); ("price", DemoList.price_field)])
    ∧ tc !! "list_display_links" = Some (TNames ["product_name"])
    ∧ tc !! "detail_models" = Some (TModels [("myshop.smartcard", "Smart Card")])
    ∧ tc !! "detail_ng_href" = Some (TStr "/dashboard/products/{{ entry.pk }}/change/").
Proof. eexists _, _, _. repeat split; vm_compute; reflexivity. Qed.

Lemma unknown_display_field_is_KeyError_witness :
  get_renderer_context (R:=unit) DemoList.fw Demo.cfg DemoList.rf DemoList.broken_view
    Demo.world
  = Next (inl (KeyError "weight"))
      (mkWorld (metas Demo.world) (products Demo.world)
         (trace Demo.world
          ++ [EvHasPerm (user (request DemoList.broken_view))
                (APP_LABEL Demo.cfg +:+ "." +:+
                 get_permission_codename DemoList.fw "add" (ProductModel_meta Demo.cfg))])).
Proof.
  apply (unknown_display_field_is_KeyError (R:=unit) DemoList.fw Demo.cfg DemoList.rf
           DemoList.broken_view Demo.world
           ["product_name"; "weight"] ["product_name"] "weight" []).
  - reflexivity.
  - vm_compute. reflexivity.
  - reflexivity.
  - constructor; [|constructor]. vm_compute. by eexists.
  - vm_compute. reflexivity.
Defined.

Lemma detail_models_cover_detail_serializers_witness :
  ∃ ctx w',
    get_renderer_context (R:=unit) DemoList.fw Demo.cfg DemoList.rf DemoList.columns_view
      Demo.world = Next (inr ctx) w'
    ∧ ∃ tc dm,
        ctx !! "template_context" = Some (RTemplateContext tc)
        ∧ tc !! "detail_models" = Some (TModels dm)
        ∧ length dm = size (detail_serializer_classes DemoList.columns_view)
        ∧ ∀ name vn,
            (name, vn) ∈ dm
            ↔ ∃ cls m options,
                detail_serializer_classes DemoList.columns_view !! name = Some cls
                ∧ metas Demo.world !! Meta cls = Some m
                ∧ model m = Some options
                ∧ vn = verbose_name options.
Proof.
  eexists _, _. split; [vm_compute; reflexivity|].
  eapply (detail_models_cover_detail_serializers (R:=unit) DemoList.fw Demo.cfg DemoList.rf
           DemoList.columns_view Demo.world).
  - reflexivity.
  - vm_compute. reflexivity.
Defined.

Lemma detail_ng_href_replaces_placeholder_witness :
  ∃ ctx w',
    get_renderer_context (R:=unit) DemoList.fw Demo.cfg DemoList.rf DemoList.columns_view
      Demo.world = Next (inr ctx) w'
    ∧ ∃ tc, ctx !! "template_context" = Some (RTemplateContext tc)
            ∧ tc !! "detail_ng_href"
              = Some (TStr ("/dashboard/products/" +:+ "{{ entry.pk }}" +:+ "/change/")).
Proof.
  eexists _, _. split; [vm_compute; reflexivity|].
  eapply (detail_ng_href_replaces_placeholder (R:=unit) DemoList.fw Demo.cfg DemoList.rf
           DemoList.columns_view Demo.world).
  - reflexivity.
  - vm_compute. reflexivity.
  - reflexivity.
  - cbn. repeat split; discriminate.
  - cbn. repeat split; discriminate.
Defined.

Lemma list_display_links_are_columns_witness :
  ∃ ctx w',
    get_renderer_context (R:=unit) DemoList.fw Demo.cfg DemoList.rf DemoList.columns_view
      Demo.world = Next (inr ctx) w'
    ∧ ∃ tc links od,
        ctx !! "template_context" = Some (RTemplateContext tc)
        ∧ tc !! "list_display_links" = Some (TNames links)
        ∧ tc !! "list_display_fields" = Some (TFields od)
        ∧ (∀ l, l ∈ links → l ∈ od_keys od)
        ∧ (od ≠ [] → links ≠ []).
Proof.
  eexists _, _. split; [vm_compute; reflexivity|].
  eapply (list_display_links_are_columns (R:=unit) DemoList.fw Demo.cfg DemoList.rf
           DemoList.columns_view Demo.world).
  - reflexivity.
  - reflexivity.
  - vm_compute. reflexivity.
Defined.

Lemma renderer_context_extends_generic_context_witness :
  ∃ ctx w',
    get_renderer_context (R:=unit) DemoList.fw Demo.cfg DemoList.rf
      (Demo.change_view Demo.get_request) Demo.world = Next (inr ctx) w'
    ∧ (∀ k, k ≠ "template_context" →
            ctx !! k = super_get_renderer_context DemoList.rf
                         (Demo.change_view Demo.get_request) !! k)
    ∧ ∃ tc crumbs w1,
        ctx !! "template_context" = Some (RTemplateContext tc)
        ∧ get_breadcrumbs (R:=unit) DemoList.fw Demo.cfg (Demo.change_view Demo.get_request)
            Demo.world = Next crumbs w1
        ∧ tc !! "breadcrumblist" = Some (TBreadcrumbs crumbs)
        ∧ tc !! "has_add_permission"
          = Some (TBool (has_perm DemoList.fw (user (request (Demo.change_view Demo.get_request)))
                           (APP_LABEL Demo.cfg +:+ "." +:+
                            get_permission_codename DemoList.fw "add"
                              (ProductModel_meta Demo.cfg))))
        ∧ dom tc
          = if bool_decide (suffix (Demo.change_view Demo.get_request) = Some "List")
            then {[ "breadcrumblist"; "has_add_permission"; "list_display_fields";
                    "list_display_links"; "detail_models"; "detail_ng_href" ]}
            else {[ "breadcrumblist"; "has_add_permission" ]}.
Proof.
  eexists _, _. split; [vm_compute; reflexivity|].
  eapply (renderer_context_extends_generic_context (R:=unit) DemoList.fw Demo.cfg DemoList.rf
           (Demo.change_view Demo.get_request) Demo.world).
  vm_compute. reflexivity.
Defined.
